(** * password_checker: a shallow embedding of [password_checker.py]

    The development follows the source file top to bottom:
    - Python values, exceptions and the process state the functions touch
      (the records handed to [logging], standard output, the files that
      [configparser] can see);
    - a small state-and-exception monad with [try ... except Exception];
    - [re.search] on the four one-character-class patterns of the source;
    - [load_config] and [check_password_strength];
    - the process around them: the root logger of [logging], the log
      files, [setup_logging], [main] and the body of the script;
    - the properties of the specification, one theorem each, and further
      properties of each function. *)

From Stdlib Require Import ZArith String Ascii List Bool Lia Permutation.
From stdpp Require Import base option list gmap strings pretty.

Local Open Scope string_scope.
Local Open Scope list_scope.
Local Open Scope Z_scope.

(** ** Python values *)

(** A [str] is a sequence of Unicode code points. *)
Definition codepoint := Z.

(** [ord(c)] for an ASCII character, used to spell the patterns and the
    test passwords the way the source does. *)
Definition ord (c : ascii) : codepoint := Z.of_N (N_of_ascii c).

(** The code points of a string literal. *)
Definition str_of (lit : string) : list codepoint :=
  List.map ord (list_ascii_of_string lit).

(** The values a caller can hand to [check_password_strength] as
    [password].  Only [PyStr] passes [isinstance(password, str)]. *)
#[warnings="-register-all"] Inductive pyval : Type :=
  | PyNone
  | PyBool (b : bool)
  | PyInt (n : Z)
  | PyBytes (bs : list Z)
  | PyStr (s : list codepoint)
  | PyList (items : list pyval).

Definition isinstance_str (v : pyval) : bool :=
  match v with
  | PyStr _ => true
  | _ => false
  end.

(** [len(password)] as a Python int. *)
Definition len {A : Type} (s : list A) : Z := Z.of_nat (List.length s).

(** ** Exceptions *)

Inductive exn_class : Type :=
  | ValueError
  | TypeError
  | FileNotFoundError
  | KeyError
  | ParsingError
  | InterpolationError
  | KeyboardInterrupt.

(** An exception object: its class and [str(e)]. *)
Record exn : Type := MkExn { exn_class_of : exn_class; exn_str : string }.

(** [isinstance(e, Exception)]: [KeyboardInterrupt] derives from
    [BaseException] only, the others from [Exception]. *)
Definition is_Exception (e : exn) : bool :=
  match exn_class_of e with
  | KeyboardInterrupt => false
  | _ => true
  end.

(** ** Process state *)

Inductive level : Type := INFO | ERROR | CRITICAL.

(** What [configparser] finds at a path.  Parsing is the library's
    business: a file that opens is represented by what reading it gives,
    either an error with its message or the sections with their options.
    The errors of [read] (a missing section header, a duplicate option, a
    line that does not parse, bytes that do not decode) all derive from
    [Exception]; one class stands for them. *)
Inductive file_state : Type :=
  | Unreadable
  | Malformed (err : string)
  | Parsed (sections : gmap string (gmap string string)).

Record world : Type := MkWorld {
  files : gmap string file_state;
  log_records : list (level * string);
  stdout : list string
}.

(** ** Computations: state and exceptions *)

Inductive outcome (A : Type) : Type :=
  | Returned (a : A)
  | Raised (e : exn).
Arguments Returned {A} a.
Arguments Raised {A} e.

Definition M (A : Type) : Type := world -> outcome A * world.

Definition ret {A : Type} (a : A) : M A := fun w => (Returned a, w).

Definition raise {A : Type} (c : exn_class) (msg : string) : M A :=
  fun w => (Raised (MkExn c msg), w).

Definition bind {A B : Type} (m : M A) (k : A -> M B) : M B :=
  fun w =>
    match m w with
    | (Returned a, w') => k a w'
    | (Raised e, w') => (Raised e, w')
    end.

Declare Scope py_scope.
Delimit Scope py_scope with py.
Notation "'let*' x ':=' c 'in' k" := (bind c (fun x => k))
  (at level 10, x pattern, c at level 100, k at level 200) : py_scope.
Notation "c ';;;' k" := (bind c (fun _ => k))
  (at level 100, k at level 200, right associativity) : py_scope.
Local Open Scope py_scope.

(** [try: body  except Exception as e: handler(e)].  An exception that is
    not an [Exception] passes through. *)
Definition try_except {A : Type} (body : M A) (handler : exn -> M A) : M A :=
  fun w =>
    match body w with
    | (Returned a, w') => (Returned a, w')
    | (Raised e, w') =>
        if is_Exception e then handler e w' else (Raised e, w')
    end.

(** [logging.error(msg)]: one more record at level [ERROR]. *)
Definition logging_error (msg : string) : M unit :=
  fun w =>
    (Returned tt,
     MkWorld (files w) (log_records w ++ [(ERROR, msg)]) (stdout w)).

(** ** [re.search] on a character class *)

(** The items of a class [[...]]: a range [a-z] or a single character. *)
Inductive class_item : Type :=
  | Range (lo hi : ascii)
  | Lit (c : ascii).

Definition item_matches (c : codepoint) (it : class_item) : bool :=
  match it with
  | Range lo hi => (ord lo <=? c) && (c <=? ord hi)
  | Lit x => c =? ord x
  end.

Definition class_matches (cls : list class_item) (c : codepoint) : bool :=
  List.existsb (item_matches c) cls.

(** [re.search(r"[...]", s)]: the start of the leftmost match, [None]
    when no character of [s] is in the class. *)
Fixpoint re_search (cls : list class_item) (s : list codepoint) : option nat :=
  match s with
  | [] => None
  | c :: rest =>
      if class_matches cls c then Some 0%nat
      else
        match re_search cls rest with
        | Some i => Some (S i)
        | None => None
        end
  end.

(** Truth value of what [re.search] returns: a match object is true,
    [None] is false. *)
Definition truthy {A : Type} (m : option A) : bool :=
  match m with
  | Some _ => true
  | None => false
  end.

(** r"[A-Z]", r"[a-z]", r"[0-9]" and r"[!@#$%^&*]". *)
Definition re_upper : list class_item := [Range "A" "Z"].
Definition re_lower : list class_item := [Range "a" "z"].
Definition re_digit : list class_item := [Range "0" "9"].
Definition re_special : list class_item :=
  [Lit "!"; Lit "@"; Lit "#"; Lit "$"; Lit "%"; Lit "^"; Lit "&"; Lit "*"].

(** ** [load_config] *)

(** A [ConfigParser] object: section name to options. *)
Abbreviation config_parser := (gmap string (gmap string string)).

(** [config.read(config_file)]: the list of the files read and the parser
    after reading.  A file that cannot be opened is skipped; a parsing
    error is raised. *)
Definition ConfigParser_read (config : config_parser) (config_file : string)
  : M (list string * config_parser) :=
  fun w =>
    match files w !! config_file with
    | None | Some Unreadable => (Returned ([], config), w)
    | Some (Malformed err) => (Raised (MkExn ParsingError err), w)
    | Some (Parsed sections) =>
        (Returned ([config_file], union sections config), w)
    end.

(** [config[name]]: [KeyError(name)] when there is no such section;
    [str] of a [KeyError] is the [repr] of the key. *)
Definition ConfigParser_getitem (config : config_parser) (name : string)
  : M (gmap string string) :=
  match config !! name with
  | Some section => ret section
  | None => raise KeyError ("'" +:+ name +:+ "'")
  end.

Definition default_settings : gmap string string :=
  {[ "log_file" := "logs/password_checker.log" ]}.

Definition load_config_try (config_file : string) : M (gmap string string) :=
  let config : config_parser := empty in
  let* r := ConfigParser_read config config_file in
  let '(read_ok, config) := r in
  match read_ok with
  | [] =>
      raise FileNotFoundError ("Config file " +:+ config_file +:+ " not found")
  | _ :: _ => ConfigParser_getitem config "Settings"
  end.

Definition load_config (config_file : string) : M (gmap string string) :=
  try_except
    (load_config_try config_file)
    (fun e =>
       logging_error ("Failed to load config: " +:+ exn_str e) ;;;
       ret default_settings).

(** ** [check_password_strength] *)

(** The two locals the function updates: [score] and [feedback]. *)
Definition locals : Type := Z * list string.

(** Lines 47-54: the [if]/[elif]/[else] on the length. *)
Definition length_rule (password : list codepoint) (min_length : Z)
  (l : locals) : locals :=
  let '(score, feedback) := l in
  if len password >=? 12 then
    (score + 2, feedback ++ ["Good length (>=12)"])
  else if len password >=? min_length then
    (score + 1, feedback ++ ["Minimum length met"])
  else
    (score, feedback ++ ["Too short"]).

(** Lines 56-67: one [if re.search(...)] with its two updates. *)
Definition class_rule (cls : list class_item) (msg : string)
  (password : list codepoint) (l : locals) : locals :=
  let '(score, feedback) := l in
  if truthy (re_search cls password) then (score + 1, feedback ++ [msg])
  else (score, feedback).

(** The body of the [try].  [min_length] is an int: the command line
    converts it with [type=int] and the default is 8. *)
Definition check_password_strength_try (password : pyval) (min_length : Z)
  (l : locals) : M locals :=
  let* s :=
    match password with
    | PyStr s => ret s
    | _ => raise ValueError "Password must be a string"
    end in
  let l := length_rule s min_length l in
  let l := class_rule re_upper "Has uppercase" s l in
  let l := class_rule re_lower "Has lowercase" s l in
  let l := class_rule re_digit "Has numbers" s l in
  let l := class_rule re_special "Has special characters" s l in
  ret l.

Definition check_password_strength (password : pyval) (min_length : Z)
  : M locals :=
  let score := 0 in
  let feedback : list string := [] in
  try_except
    (check_password_strength_try password min_length (score, feedback))
    (fun e =>
       logging_error ("Error checking password: " +:+ exn_str e) ;;;
       ret (0, ["Error: " +:+ exn_str e])).

(** *** [min_length] as any object *)

(** The function takes whatever the caller passes as [min_length]; only the
    command line makes it an int.  The comparison on line 50 is the one
    place that looks at it. *)

(** The number an object is in a comparison with an int: an int itself, or
    a bool, which is an int (False is 0, True is 1). *)
Definition as_number (v : pyval) : option Z :=
  match v with
  | PyInt n => Some n
  | PyBool b => Some (Z.b2z b)
  | _ => None
  end.

(** [type(v).__name__]. *)
Definition type_name (v : pyval) : string :=
  match v with
  | PyNone => "NoneType"
  | PyBool _ => "bool"
  | PyInt _ => "int"
  | PyBytes _ => "bytes"
  | PyStr _ => "str"
  | PyList _ => "list"
  end.

(** [a >= v] for an int [a]: a [TypeError] when [v] is not a number. *)
Definition int_ge (a : Z) (v : pyval) : M bool :=
  match as_number v with
  | Some n => ret (a >=? n)
  | None =>
      raise TypeError
        ("'>=' not supported between instances of 'int' and '"
         +:+ type_name v +:+ "'")
  end.

(** Lines 47-54 again: the [elif] is evaluated, and can raise, only when
    the [if] fails. *)
Definition length_rule_untyped (password : list codepoint) (min_length : pyval)
  (l : locals) : M locals :=
  let '(score, feedback) := l in
  if len password >=? 12 then
    ret (score + 2, feedback ++ ["Good length (>=12)"])
  else
    let* met := int_ge (len password) min_length in
    if met then ret (score + 1, feedback ++ ["Minimum length met"])
    else ret (score, feedback ++ ["Too short"]).

Definition check_password_strength_untyped_try (password min_length : pyval)
  (l : locals) : M locals :=
  let* s :=
    match password with
    | PyStr s => ret s
    | _ => raise ValueError "Password must be a string"
    end in
  let* l := length_rule_untyped s min_length l in
  let l := class_rule re_upper "Has uppercase" s l in
  let l := class_rule re_lower "Has lowercase" s l in
  let l := class_rule re_digit "Has numbers" s l in
  let l := class_rule re_special "Has special characters" s l in
  ret l.

Definition check_password_strength_untyped (password min_length : pyval)
  : M locals :=
  let score := 0 in
  let feedback : list string := [] in
  try_except
    (check_password_strength_untyped_try password min_length (score, feedback))
    (fun e =>
       logging_error ("Error checking password: " +:+ exn_str e) ;;;
       ret (0, ["Error: " +:+ exn_str e])).

(** A world with no files, nothing logged and nothing printed. *)
Definition empty_world : world := MkWorld empty [] [].

(** ** What the rules compute *)

(** Whether some character of [s] lies in the class. *)
Definition has_class (cls : list class_item) (s : list codepoint) : bool :=
  List.existsb (class_matches cls) s.

(** Points and entry of the length rule. *)
Definition tier (s : list codepoint) (min_length : Z) : Z * string :=
  if len s >=? 12 then (2, "Good length (>=12)")
  else if len s >=? min_length then (1, "Minimum length met")
  else (0, "Too short").

(** The entry a class rule adds. *)
Definition entry (b : bool) (msg : string) : list string :=
  if b then [msg] else [].

(** The result for a string, rule by rule. *)
Definition str_score (s : list codepoint) (n : Z) : Z :=
  fst (tier s n)
  + Z.b2z (has_class re_upper s) + Z.b2z (has_class re_lower s)
  + Z.b2z (has_class re_digit s) + Z.b2z (has_class re_special s).

Definition str_feedback (s : list codepoint) (n : Z) : list string :=
  snd (tier s n)
  :: entry (has_class re_upper s) "Has uppercase"
  ++ entry (has_class re_lower s) "Has lowercase"
  ++ entry (has_class re_digit s) "Has numbers"
  ++ entry (has_class re_special s) "Has special characters".

(** The character classes, as sets of code points. *)
Definition is_upper (c : codepoint) : Prop := ord "A" <= c <= ord "Z".
Definition is_lower (c : codepoint) : Prop := ord "a" <= c <= ord "z".
Definition is_digit (c : codepoint) : Prop := ord "0" <= c <= ord "9".
Definition is_special (c : codepoint) : Prop :=
  In c (List.map ord ["!"; "@"; "#"; "$"; "%"; "^"; "&"; "*"]%char).

(** Some character of [s] has the property. *)
Definition occurs (P : codepoint -> Prop) (s : list codepoint) : Prop :=
  exists c, In c s /\ P c.

(** ** The process around the checker *)

(** [setup_logging], [main] and the script body act on more than the
    functions above: what is printed to standard error, the root logger of
    [logging] with its handlers, and the log files.  The functions above
    record their logging calls in [log_records]; here the root logger
    decides what becomes of each call. *)

(** [logging.INFO], [logging.ERROR] and [logging.CRITICAL] as numbers; the
    root logger starts at [logging.WARNING]. *)
Definition levelno (l : level) : Z :=
  match l with
  | INFO => 20
  | ERROR => 40
  | CRITICAL => 50
  end.

Definition WARNING : Z := 30.

(** [logging.FileHandler(filename)] and [logging.StreamHandler()], which
    writes to standard error. *)
Inductive handler : Type :=
  | FileHandler (filename : string)
  | StreamHandler.

Record root_logger : Type := MkRoot {
  handlers : list handler;
  root_level : Z
}.

(** The root logger of a process that has not touched [logging] yet. *)
Definition root_at_start : root_logger := MkRoot [] WARNING.

(** The state of the process.  Formatting a record (time stamp, level
    name) is left to the library: a written record is kept as its level
    and its message.
    - [stderr]: the lines printed with [file=sys.stderr];
    - [console]: the records a [StreamHandler] wrote;
    - [log_files]: the log files that exist, each with the records
      appended to it;
    - [unwritable]: the log paths whose directories cannot be made or that
      cannot be opened for appending, each with [str] of the [OSError]. *)
Record process : Type := MkProcess {
  proc_world : world;
  stderr : list string;
  root : root_logger;
  console : list (level * string);
  log_files : gmap string (list (level * string));
  unwritable : gmap string string
}.

Definition set_world (w : world) (p : process) : process :=
  MkProcess w (stderr p) (root p) (console p) (log_files p) (unwritable p).

Definition set_root (r : root_logger) (p : process) : process :=
  MkProcess (proc_world p) (stderr p) r (console p) (log_files p)
    (unwritable p).

(** What ends a computation early: an exception of the functions above,
    an [OSError] of the file system, or [SystemExit], which is not an
    [Exception]. *)
Inductive signal : Type :=
  | Exc (e : exn)
  | OSError (msg : string)
  | SystemExit (code : Z).

Definition signal_is_Exception (sg : signal) : bool :=
  match sg with
  | Exc e => is_Exception e
  | OSError _ => true
  | SystemExit _ => false
  end.

Definition signal_str (sg : signal) : string :=
  match sg with
  | Exc e => exn_str e
  | OSError msg => msg
  | SystemExit code => pretty code
  end.

Inductive completion (A : Type) : Type :=
  | Normal (a : A)
  | Abrupt (sg : signal).
Arguments Normal {A} a.
Arguments Abrupt {A} sg.

Definition P (A : Type) : Type := process -> completion A * process.

Definition retP {A : Type} (a : A) : P A := fun p => (Normal a, p).

Definition bindP {A B : Type} (m : P A) (k : A -> P B) : P B :=
  fun p =>
    match m p with
    | (Normal a, p') => k a p'
    | (Abrupt sg, p') => (Abrupt sg, p')
    end.

Notation "'let+' x ':=' c 'in' k" := (bindP c (fun x => k))
  (at level 10, x pattern, c at level 100, k at level 200) : py_scope.
Notation "c '>>>' k" := (bindP c (fun _ => k))
  (at level 100, k at level 200, right associativity) : py_scope.

(** [sys.exit(code)]. *)
Definition sys_exit {A : Type} (code : Z) : P A :=
  fun p => (Abrupt (SystemExit code), p).

(** [try: body  except Exception as e: handler(e)] for the process. *)
Definition try_exceptP {A : Type} (body : P A) (on_exception : signal -> P A)
  : P A :=
  fun p =>
    match body p with
    | (Normal a, p') => (Normal a, p')
    | (Abrupt sg, p') =>
        if signal_is_Exception sg then on_exception sg p'
        else (Abrupt sg, p')
    end.

(** [print(line)] and [print(line, file=sys.stderr)]. *)
Definition print (line : string) : P unit :=
  fun p =>
    let w := proc_world p in
    (Normal tt,
     set_world (MkWorld (files w) (log_records w) (stdout w ++ [line])) p).

Definition print_stderr (line : string) : P unit :=
  fun p =>
    (Normal tt,
     MkProcess (proc_world p) (stderr p ++ [line]) (root p) (console p)
       (log_files p) (unwritable p)).

(** One handler writing one record. *)
Definition emit (record : level * string) (p : process) (h : handler)
  : process :=
  match h with
  | FileHandler filename =>
      MkProcess (proc_world p) (stderr p) (root p) (console p)
        (<[filename := default [] (log_files p !! filename) ++ [record]]>
           (log_files p))
        (unwritable p)
  | StreamHandler =>
      MkProcess (proc_world p) (stderr p) (root p) (console p ++ [record])
        (log_files p) (unwritable p)
  end.

(** What the root logger does with a call of [logging.info],
    [logging.error] or [logging.critical]: with no handler yet the call
    first runs [basicConfig()], which adds a [StreamHandler] and leaves the
    level alone; a record below the level of the root logger is dropped,
    any other goes to every handler. *)
Definition root_handle (p : process) (record : level * string) : process :=
  let p :=
    match handlers (root p) with
    | [] => set_root (MkRoot [StreamHandler] (root_level (root p))) p
    | _ :: _ => p
    end in
  if levelno (fst record) >=? root_level (root p) then
    List.fold_left (emit record) (handlers (root p)) p
  else p.

(** Running one of the functions above in the process: its logging calls,
    the records it added to [log_records], reach the root logger in
    order. *)
Definition run {A : Type} (m : M A) : P A :=
  fun p =>
    let '(o, w') := m (proc_world p) in
    let calls :=
      List.skipn (List.length (log_records (proc_world p))) (log_records w') in
    let p' := List.fold_left root_handle calls (set_world w' p) in
    match o with
    | Returned a => (Normal a, p')
    | Raised e => (Abrupt (Exc e), p')
    end.

(** [logging.info(msg)] and [logging.critical(msg)], recorded like
    [logging.error]. *)
Definition logging_call (l : level) (msg : string) : M unit :=
  fun w =>
    (Returned tt, MkWorld (files w) (log_records w ++ [(l, msg)]) (stdout w)).

Definition logging_info (msg : string) : P unit := run (logging_call INFO msg).

Definition logging_critical (msg : string) : P unit :=
  run (logging_call CRITICAL msg).

(** ** [setup_logging] *)

(** [Path(log_file).parent.mkdir(parents=True, exist_ok=True)] followed by
    [logging.FileHandler(log_file)], which opens the file for appending and
    so creates it: either step can raise an [OSError]. *)
Definition open_log_file (log_file : string) : P handler :=
  fun p =>
    match unwritable p !! log_file with
    | Some err => (Abrupt (OSError err), p)
    | None =>
        (Normal (FileHandler log_file),
         MkProcess (proc_world p) (stderr p) (root p) (console p)
           (<[log_file := default [] (log_files p !! log_file)]> (log_files p))
           (unwritable p))
    end.

(** [logging.basicConfig(level=..., handlers=...)]: does nothing when the
    root logger has a handler already. *)
Definition basicConfig (lvl : Z) (hs : list handler) : P unit :=
  fun p =>
    match handlers (root p) with
    | [] => (Normal tt, set_root (MkRoot hs lvl) p)
    | _ :: _ => (Normal tt, p)
    end.

Definition setup_logging (log_file : string) : P unit :=
  try_exceptP
    (let+ file_handler := open_log_file log_file in
     basicConfig (levelno INFO) [file_handler; StreamHandler])
    (fun e =>
       print_stderr ("Failed to setup logging: " +:+ signal_str e) >>>
       sys_exit 1).

(** ** [main] *)

(** What [parser.parse_args()] returns when it returns: the password as a
    [str], [min_length] as an int, the path of the configuration.  Parsing
    the command line is the business of [argparse]; [main] is modelled from
    there on. *)
Record Namespace : Type := MkNamespace {
  args_password : list codepoint;
  args_min_length : Z;
  args_config : string
}.

(** [for msg in items: body(msg)]. *)
Fixpoint for_in {A : Type} (items : list A) (body : A -> P unit) : P unit :=
  match items with
  | [] => retP tt
  | x :: rest => body x >>> for_in rest body
  end.

(** Whether [c] occurs in [s]. *)
Fixpoint contains (c : ascii) (s : string) : bool :=
  match s with
  | EmptyString => false
  | String a rest => Ascii.eqb a c || contains c rest
  end.

(** An outcome of the functions above, in the process. *)
Definition lift {A : Type} (o : outcome A) : P A :=
  fun p =>
    match o with
    | Returned a => (Normal a, p)
    | Raised e => (Abrupt (Exc e), p)
    end.

(** The exit status of the interpreter. *)
Definition exit_status (c : completion unit) : Z :=
  match c with
  | Normal _ => 0
  | Abrupt (SystemExit code) => code
  | Abrupt _ => 1
  end.

(** A process at its start: nothing logged, printed or configured. *)
Definition process_at_start (fs : gmap string file_state)
  (bad : gmap string string) : process :=
  MkProcess (MkWorld fs [] []) [] root_at_start [] empty bad.

Section Script.

(** What the interpolation of [configparser] makes of a value in which a
    [%] occurs, given the options of the section, the name of the option
    and the value as written: the value to return, or [str] of the
    [InterpolationError] it raises (a reference [%(name)s] to an option
    that is not there, a [%] followed by neither [%] nor [(], references
    nested too deep).  That is the business of the library. *)
Variable interpolate : gmap string string -> string -> string -> string + string.

(** [config.get(key, fallback)] on what [load_config] returns.  On the
    section of the parser: the fallback when the option is missing; the
    value as written when it has no [%], which interpolation returns
    unchanged; what interpolation makes of it otherwise.  On the default
    dict [get] is a plain lookup, and the one value of that dict has no
    [%]. *)
Definition Settings_get (settings : gmap string string) (key fallback : string)
  : outcome string :=
  match settings !! key with
  | None => Returned fallback
  | Some value =>
      if contains "%" value then
        match interpolate settings key value with
        | inl result => Returned result
        | inr err => Raised (MkExn InterpolationError err)
        end
      else Returned value
  end.

Definition main (args : Namespace) : P unit :=
  let+ config := run (load_config (args_config args)) in
  let+ log_file :=
    lift (Settings_get config "log_file" "logs/password_checker.log") in
  setup_logging log_file >>>
  logging_info
    ("Checking password strength (length: "
     +:+ pretty (len (args_password args)) +:+ ")") >>>
  let+ result :=
    run (check_password_strength (PyStr (args_password args))
           (args_min_length args)) in
  let '(score, feedback) := result in
  print ("Password Score: " +:+ pretty score +:+ "/6") >>>
  for_in feedback (fun msg => print ("- " +:+ msg)) >>>
  logging_info ("Password scored " +:+ pretty score +:+ "/6").

(** The body of the script, lines 115-122: [main()] under its two
    [except] clauses. *)
Definition script (args : Namespace) : P unit :=
  fun p =>
    match main args p with
    | (Normal tt, p') => (Normal tt, p')
    | (Abrupt sg, p') =>
        match sg with
        | Exc (MkExn KeyboardInterrupt _) =>
            (logging_info "Program terminated by user" >>> sys_exit 0) p'
        | _ =>
            if signal_is_Exception sg then
              (logging_critical ("Unexpected error: " +:+ signal_str sg) >>>
               sys_exit 1) p'
            else (Abrupt sg, p')
        end
    end.

(** What [main] hands to [setup_logging]: [config.get('log_file', ...)] on
    what [load_config] returns. *)
Definition log_file_of (config_file : string) (w : world) : outcome string :=
  match fst (load_config config_file w) with
  | Returned settings =>
      Settings_get settings "log_file" "logs/password_checker.log"
  | Raised e => Raised e
  end.

End Script.

(** What the root logger never touches: the world of the functions
    above, standard error and the state of the file system. *)
Definition untouched_by_logging (p p' : process) : Prop :=
  proc_world p' = proc_world p
  /\ stderr p' = stderr p
  /\ unwritable p' = unwritable p.

(** The lines [main] prints for a result. *)
Definition report (score : Z) (feedback : list string) : list string :=
  ("Password Score: " +:+ pretty score +:+ "/6")
  :: List.map (fun msg => "- " +:+ msg) feedback.

(** ** Running the checker on fixed inputs *)

Example check_short w :
  check_password_strength (PyStr (str_of "short")) 8 w
  = (Returned (1, ["Too short"; "Has lowercase"]), w).
Proof. reflexivity. Qed.

Example check_long_enough w :
  check_password_strength (PyStr (str_of "longenoughpassword123")) 8 w
  = (Returned (4, ["Good length (>=12)"; "Has lowercase"; "Has numbers"]), w).
Proof. reflexivity. Qed.

Example check_not_ascii w :
  check_password_strength (PyStr [233; 8364; 128512]) 3 w
  = (Returned (1, ["Minimum length met"]), w).
Proof. reflexivity. Qed.

(** ** Facts about the rules *)

Lemma re_search_truthy cls s : truthy (re_search cls s) = has_class cls s.
Proof.
  induction s as [|c s IH]; simpl; [reflexivity|].
  destruct (class_matches cls c); simpl; [reflexivity|].
  rewrite <- IH. destruct (re_search cls s); reflexivity.
Qed.

(** The match that [re.search] reports is the leftmost one. *)
Lemma re_search_leftmost cls s i :
  re_search cls s = Some i ->
  (exists c, nth_error s i = Some c /\ class_matches cls c = true) /\
  forall j c, (j < i)%nat -> nth_error s j = Some c -> class_matches cls c = false.
Proof.
  revert i. induction s as [|c s IH]; simpl; intros i H; [discriminate|].
  destruct (class_matches cls c) eqn:Hc.
  - injection H as <-. split; [exists c; auto|]. intros j c' Hj. lia.
  - destruct (re_search cls s) as [k|] eqn:Hs; [|discriminate].
    injection H as <-. destruct (IH k eq_refl) as [Hex Hleft]. split.
    + exact Hex.
    + intros [|j] c' Hj Hn; simpl in Hn.
      * injection Hn as <-. exact Hc.
      * apply (Hleft j c'); [lia|exact Hn].
Qed.

Lemma length_rule_tier s n score feedback :
  length_rule s n (score, feedback)
  = (score + fst (tier s n), feedback ++ [snd (tier s n)]).
Proof.
  unfold length_rule, tier.
  destruct (len s >=? 12); [reflexivity|].
  destruct (len s >=? n); simpl; [reflexivity|].
  f_equal. lia.
Qed.

Lemma class_rule_entry cls msg s score feedback :
  class_rule cls msg s (score, feedback)
  = (score + Z.b2z (has_class cls s), feedback ++ entry (has_class cls s) msg).
Proof.
  unfold class_rule. rewrite re_search_truthy.
  destruct (has_class cls s); simpl; [reflexivity|].
  rewrite app_nil_r. f_equal. lia.
Qed.

Lemma check_password_strength_try_str s n w :
  check_password_strength_try (PyStr s) n (0, []) w
  = (Returned (str_score s n, str_feedback s n), w).
Proof.
  unfold check_password_strength_try, bind, ret.
  rewrite length_rule_tier, !class_rule_entry.
  unfold str_score, str_feedback. simpl.
  rewrite <- !app_assoc. reflexivity.
Qed.

Lemma check_password_strength_str s n w :
  check_password_strength (PyStr s) n w
  = (Returned (str_score s n, str_feedback s n), w).
Proof.
  unfold check_password_strength, try_except.
  rewrite check_password_strength_try_str. reflexivity.
Qed.

Lemma check_password_strength_not_str p n w :
  isinstance_str p = false ->
  check_password_strength p n w
  = (Returned (0, ["Error: Password must be a string"]),
     MkWorld (files w)
       (log_records w
        ++ [(ERROR, "Error checking password: Password must be a string")])
       (stdout w)).
Proof. destruct p; intros H; try discriminate H; reflexivity. Qed.

(** From [isinstance_str p = true] to [p = PyStr s]. *)
Ltac str_only H :=
  match type of H with
  | isinstance_str ?p = true => destruct p as [| | | |?s|]; try discriminate H
  end.

(** One fact per character class. *)
Ltac for_each_class f :=
  pose proof (f re_upper); pose proof (f re_lower);
  pose proof (f re_digit); pose proof (f re_special).

Lemma tier_bounds s n : 0 <= fst (tier s n) <= 2.
Proof.
  unfold tier. destruct (len s >=? 12); [simpl; lia|].
  destruct (len s >=? n); simpl; lia.
Qed.

Lemma b2z_bounds b : 0 <= Z.b2z b <= 1.
Proof. destruct b; simpl; lia. Qed.

Lemma entry_length b msg : (List.length (entry b msg) <= 1)%nat.
Proof. destruct b; simpl; lia. Qed.

(** ** The length rule below the minimum *)

(** C1, as amended: for every password string and every minLength, if the
    length of the password is below minLength and below 12, the length rule
    adds 0 to the score and the entry "Too short" to the feedback, so the
    feedback returned includes "Too short"; the empty password with
    minLength 8 gives score 0 and feedback exactly ["Too short"]. *)
Theorem too_short_below_both_thresholds (s : list codepoint) (n : Z) :
  len s < n -> len s < 12 ->
  (forall score feedback,
     length_rule s n (score, feedback) = (score + 0, feedback ++ ["Too short"]))
  /\ (forall w, exists score feedback,
        check_password_strength (PyStr s) n w = (Returned (score, feedback), w)
        /\ In "Too short" feedback)
  /\ (forall w,
        check_password_strength (PyStr []) 8 w = (Returned (0, ["Too short"]), w)).
Proof.
  intros Hn H12.
  assert (Ht : tier s n = (0, "Too short")).
  { unfold tier.
    destruct (Z.geb_spec (len s) 12) as [?|_]; [lia|].
    destruct (Z.geb_spec (len s) n) as [?|_]; [lia|reflexivity]. }
  split; [|split].
  - intros score feedback. rewrite length_rule_tier, Ht. reflexivity.
  - intros w. exists (str_score s n), (str_feedback s n).
    split; [apply check_password_strength_str|].
    unfold str_feedback. rewrite Ht. left. reflexivity.
  - intros w. reflexivity.
Qed.

Lemma too_short_below_both_thresholds_witness :
  (forall score feedback,
     length_rule (str_of "abc") 8 (score, feedback)
     = (score + 0, feedback ++ ["Too short"]))
  /\ (forall w, exists score feedback,
        check_password_strength (PyStr (str_of "abc")) 8 w
        = (Returned (score, feedback), w)
        /\ In "Too short" feedback)
  /\ (forall w,
        check_password_strength (PyStr []) 8 w = (Returned (0, ["Too short"]), w)).
Proof.
  apply (too_short_below_both_thresholds (str_of "abc") 8);
    vm_compute; reflexivity.
Defined.

(** C1, as stated, fails when minLength is above 12: a password of twelve
    characters is shorter than a minLength of 13, yet the first branch of
    the length rule fires, adds 2 and reports "Good length (>=12)". *)
Lemma too_short_below_minimum_counterexample :
  len (str_of "aaaaaaaaaaaa") < 13
  /\ length_rule (str_of "aaaaaaaaaaaa") 13 (0, [])
     = (2, ["Good length (>=12)"])
  /\ check_password_strength (PyStr (str_of "aaaaaaaaaaaa")) 13 empty_world
     = (Returned (3, ["Good length (>=12)"; "Has lowercase"]), empty_world)
  /\ ~ In "Too short" ["Good length (>=12)"; "Has lowercase"].
Proof.
  split; [reflexivity|]. split; [reflexivity|]. split; [reflexivity|].
  intros [H|[H|[]]]; discriminate H.
Qed.

(** ** Range of the result *)

(** C2: for every password value and every minLength the call returns, the
    score is between 0 and 6 and the feedback has between 1 and 5 entries. *)
Theorem score_and_feedback_bounds (password : pyval) (n : Z) (w : world) :
  exists score feedback,
    fst (check_password_strength password n w) = Returned (score, feedback)
    /\ 0 <= score <= 6
    /\ (1 <= List.length feedback <= 5)%nat.
Proof.
  destruct (isinstance_str password) eqn:Hstr.
  - str_only Hstr.
    exists (str_score s n), (str_feedback s n).
    rewrite check_password_strength_str. split; [reflexivity|]. split.
    + unfold str_score.
      pose proof (tier_bounds s n).
      for_each_class (fun cls => b2z_bounds (has_class cls s)).
      lia.
    + unfold str_feedback. simpl. rewrite !length_app.
      pose proof (fun cls msg => entry_length (has_class cls s) msg) as Hlen.
      pose proof (Hlen re_upper "Has uppercase").
      pose proof (Hlen re_lower "Has lowercase").
      pose proof (Hlen re_digit "Has numbers").
      pose proof (Hlen re_special "Has special characters").
      lia.
  - exists 0, ["Error: Password must be a string"].
    rewrite (check_password_strength_not_str _ _ _ Hstr).
    simpl. repeat split; lia.
Qed.

(** ** A password with every class *)

(** C3: "Ab1!efgh" with minLength 8 scores 5, and the feedback is the
    minimum-length entry followed by the four class entries. *)
Theorem check_Ab1_efgh (w : world) :
  check_password_strength (PyStr (str_of "Ab1!efgh")) 8 w
  = (Returned
       (5, ["Minimum length met"; "Has uppercase"; "Has lowercase";
            "Has numbers"; "Has special characters"]),
     w).
Proof. reflexivity. Qed.

(** ** A password that is not a string *)

(** C4: when the password is not a [str] the call does not raise; it
    returns score 0 and one feedback entry, the error message. *)
Theorem non_string_password_fallback (password : pyval) (n : Z) (w : world) :
  isinstance_str password = false ->
  fst (check_password_strength password n w)
  = Returned (0, ["Error: Password must be a string"]).
Proof.
  intros Hstr. rewrite (check_password_strength_not_str _ _ _ Hstr).
  reflexivity.
Qed.

Lemma non_string_password_fallback_witness :
  fst (check_password_strength (PyInt 12345678) 8 empty_world)
  = Returned (0, ["Error: Password must be a string"]).
Proof.
  apply (non_string_password_fallback (PyInt 12345678) 8 empty_world).
  reflexivity.
Defined.

(** ** Loading the configuration *)

(** A file with a section [Settings]: the section, and nothing logged. *)
Lemma load_config_section config_file w sections section :
  files w !! config_file = Some (Parsed sections) ->
  sections !! "Settings" = Some section ->
  load_config config_file w = (Returned section, w).
Proof.
  intros Hf Hs.
  unfold load_config, try_except, load_config_try, bind, ConfigParser_read.
  rewrite Hf. unfold ConfigParser_getitem.
  rewrite (right_id_L empty union sections), Hs. reflexivity.
Qed.

(** A missing file: the default, and the failure goes to the log. *)
Lemma load_config_missing config_file w :
  files w !! config_file = None ->
  load_config config_file w
  = (Returned default_settings,
     MkWorld (files w)
       (log_records w
        ++ [(ERROR,
             "Failed to load config: Config file " +:+ config_file
             +:+ " not found")])
       (stdout w)).
Proof.
  intros Hf.
  unfold load_config, try_except, load_config_try, bind, ConfigParser_read.
  rewrite Hf. reflexivity.
Qed.

(** A file that does not parse: the default, and the error of the parser
    goes to the log. *)
Lemma load_config_malformed config_file w err :
  files w !! config_file = Some (Malformed err) ->
  load_config config_file w
  = (Returned default_settings,
     MkWorld (files w)
       (log_records w ++ [(ERROR, "Failed to load config: " +:+ err)])
       (stdout w)).
Proof.
  intros Hf.
  unfold load_config, try_except, load_config_try, bind, ConfigParser_read.
  rewrite Hf. reflexivity.
Qed.

(** The default has the one key [main] asks for. *)
Lemma default_settings_log_file :
  default_settings !! "log_file" = Some "logs/password_checker.log".
Proof. reflexivity. Qed.

(** C5: [load_config] returns for every path and every state of the file
    system, never raises; it returns the section [Settings] of a file that
    parses and has one, and the default [{log_file:
    "logs/password_checker.log"}] for a file that is missing, cannot be
    opened, does not parse or has no such section. *)
Theorem load_config_never_raises (config_file : string) (w : world) :
  fst (load_config config_file w)
  = Returned
      match files w !! config_file with
      | Some (Parsed sections) =>
          match sections !! "Settings" with
          | Some section => section
          | None => default_settings
          end
      | Some (Malformed _) | Some Unreadable | None => default_settings
      end.
Proof.
  unfold load_config, try_except, load_config_try, bind, ConfigParser_read.
  destruct (files w !! config_file) as [[|err|sections]|]; try reflexivity.
  unfold ConfigParser_getitem.
  rewrite (right_id_L empty union sections).
  destruct (sections !! "Settings"); reflexivity.
Qed.

(** ** Effects of the checker *)

(** With an int as [min_length]: [check_password_strength] never prints
    and never touches the files; for a string password it logs nothing,
    and for a password that is not a string its fallback logs one record
    at level ERROR, "Error checking password: Password must be a string". *)
Lemma check_password_strength_int_effects (password : pyval) (n : Z) (w : world) :
  stdout (snd (check_password_strength password n w)) = stdout w
  /\ files (snd (check_password_strength password n w)) = files w
  /\ log_records (snd (check_password_strength password n w))
     = log_records w
       ++ (if isinstance_str password then []
           else [(ERROR, "Error checking password: Password must be a string")]).
Proof.
  destruct (isinstance_str password) eqn:Hstr.
  - str_only Hstr.
    rewrite check_password_strength_str. simpl.
    rewrite app_nil_r. auto.
  - rewrite (check_password_strength_not_str _ _ _ Hstr). simpl. auto.
Qed.


(** ** Order of the feedback *)

Lemma has_class_occurs cls P s :
  (forall c, class_matches cls c = true <-> P c) ->
  has_class cls s = true <-> occurs P s.
Proof.
  intros HP. unfold has_class, occurs. rewrite existsb_exists.
  split; intros [c [Hin Hc]]; exists c; split; auto; apply HP; exact Hc.
Qed.

Lemma range_matches lo hi c :
  class_matches [Range lo hi] c = true <-> ord lo <= c <= ord hi.
Proof.
  unfold class_matches. simpl.
  rewrite orb_false_r, andb_true_iff, !Z.leb_le. reflexivity.
Qed.

Lemma special_matches c : class_matches re_special c = true <-> is_special c.
Proof.
  unfold class_matches, re_special, is_special. simpl.
  rewrite !orb_true_iff, !Z.eqb_eq.
  intuition congruence.
Qed.

Lemma In_entry msg b msg' : In msg (entry b msg') <-> b = true /\ msg = msg'.
Proof.
  destruct b; simpl; intuition congruence.
Qed.

(** C7: for every string password the feedback is the entry of the length
    rule followed by the class entries in the order "Has uppercase", "Has
    lowercase", "Has numbers", "Has special characters", and each class
    entry is there exactly when a character of its class occurs in the
    password. *)
Theorem feedback_in_rule_order (s : list codepoint) (n : Z) (w : world) :
  exists score tier_entry class_entries,
    check_password_strength (PyStr s) n w
    = (Returned (score, tier_entry :: class_entries), w)
    /\ In tier_entry ["Good length (>=12)"; "Minimum length met"; "Too short"]
    /\ sublist class_entries
         ["Has uppercase"; "Has lowercase"; "Has numbers";
          "Has special characters"]
    /\ (In "Has uppercase" class_entries <-> occurs is_upper s)
    /\ (In "Has lowercase" class_entries <-> occurs is_lower s)
    /\ (In "Has numbers" class_entries <-> occurs is_digit s)
    /\ (In "Has special characters" class_entries <-> occurs is_special s).
Proof.
  exists (str_score s n), (snd (tier s n)).
  eexists. split; [apply check_password_strength_str|].
  split.
  { unfold tier. destruct (len s >=? 12); [simpl; auto|].
    destruct (len s >=? n); simpl; auto. }
  rewrite <- (has_class_occurs re_upper is_upper s (range_matches _ _)).
  rewrite <- (has_class_occurs re_lower is_lower s (range_matches _ _)).
  rewrite <- (has_class_occurs re_digit is_digit s (range_matches _ _)).
  rewrite <- (has_class_occurs re_special is_special s special_matches).
  rewrite !in_app_iff, !In_entry.
  split.
  { destruct (has_class re_upper s), (has_class re_lower s),
      (has_class re_digit s), (has_class re_special s); simpl;
      repeat constructor. }
  repeat split; intros; try tauto;
    repeat match goal with
    | H : _ \/ _ |- _ => destruct H
    | H : _ /\ _ |- _ => destruct H
    end; try assumption; discriminate.
Qed.

(** ** Reordering and extending the password *)

Lemma has_class_Permutation cls s s' :
  Permutation s s' -> has_class cls s = has_class cls s'.
Proof.
  unfold has_class. induction 1 as [|c s s' _ IH|c d s|s s' s'' _ IH1 _ IH2].
  - reflexivity.
  - simpl. rewrite IH. reflexivity.
  - simpl. destruct (class_matches cls c), (class_matches cls d); reflexivity.
  - rewrite IH1. exact IH2.
Qed.

Lemma len_Permutation (s s' : list codepoint) :
  Permutation s s' -> len s = len s'.
Proof. intros H. unfold len. rewrite (Permutation_length H). reflexivity. Qed.

Lemma str_score_Permutation s s' n :
  Permutation s s' -> str_score s n = str_score s' n.
Proof.
  intros H. unfold str_score, tier.
  rewrite (len_Permutation s s' H), !(has_class_Permutation _ s s' H).
  reflexivity.
Qed.

(** C8: for every string password and every minLength, a permutation of
    the characters of the password gets the same score. *)
Theorem score_permutation_invariant (s s' : list codepoint) (n : Z) (w : world) :
  Permutation s s' ->
  exists score feedback feedback',
    fst (check_password_strength (PyStr s) n w) = Returned (score, feedback)
    /\ fst (check_password_strength (PyStr s') n w)
       = Returned (score, feedback').
Proof.
  intros H. exists (str_score s n), (str_feedback s n), (str_feedback s' n).
  rewrite !check_password_strength_str, (str_score_Permutation s s' n H).
  split; reflexivity.
Qed.

Lemma score_permutation_invariant_witness :
  exists score feedback feedback',
    fst (check_password_strength (PyStr (str_of "Ab1")) 8 empty_world)
    = Returned (score, feedback)
    /\ fst (check_password_strength (PyStr (str_of "b1A")) 8 empty_world)
       = Returned (score, feedback').
Proof.
  apply (score_permutation_invariant (str_of "Ab1") (str_of "b1A") 8 empty_world).
  exact (Permutation_cons_append (str_of "b1") (ord "A")).
Defined.

Lemma has_class_app cls p s :
  has_class cls (p ++ s) = has_class cls p || has_class cls s.
Proof. unfold has_class. apply existsb_app. Qed.

Lemma has_class_app_le cls p s :
  Z.b2z (has_class cls p) <= Z.b2z (has_class cls (p ++ s)).
Proof.
  rewrite has_class_app.
  destruct (has_class cls p), (has_class cls s); simpl; lia.
Qed.

Lemma tier_app_le p s n : fst (tier p n) <= fst (tier (p ++ s) n).
Proof.
  assert (Hlen : len p <= len (p ++ s)).
  { unfold len. rewrite length_app. lia. }
  unfold tier.
  destruct (Z.geb_spec (len p) 12), (Z.geb_spec (len (p ++ s)) 12),
    (Z.geb_spec (len p) n), (Z.geb_spec (len (p ++ s)) n); simpl; lia.
Qed.

(** C9: for every string password [p], every suffix [s] and every
    minLength, the score of [p ++ s] is at least the score of [p]. *)
Theorem appending_never_lowers_score (p s : list codepoint) (n : Z) (w : world) :
  exists score score' feedback feedback',
    fst (check_password_strength (PyStr p) n w) = Returned (score, feedback)
    /\ fst (check_password_strength (PyStr (p ++ s)) n w)
       = Returned (score', feedback')
    /\ score <= score'.
Proof.
  exists (str_score p n), (str_score (p ++ s) n),
    (str_feedback p n), (str_feedback (p ++ s) n).
  rewrite !check_password_strength_str.
  split; [reflexivity|]. split; [reflexivity|].
  unfold str_score.
  pose proof (tier_app_le p s n).
  for_each_class (fun cls => has_class_app_le cls p s).
  lia.
Qed.

(** * Further properties of [check_password_strength] *)

(** ** The role of [min_length] *)

Lemma tier_fst_2 s n : fst (tier s n) = 2 <-> 12 <= len s.
Proof.
  unfold tier. destruct (Z.geb_spec (len s) 12); [simpl; lia|].
  destruct (Z.geb_spec (len s) n); simpl; lia.
Qed.

Lemma tier_fst_0 s n : fst (tier s n) = 0 <-> len s < 12 /\ len s < n.
Proof.
  unfold tier. destruct (Z.geb_spec (len s) 12); [simpl; lia|].
  destruct (Z.geb_spec (len s) n); simpl; lia.
Qed.

Lemma tier_from_12 s n : 12 <= len s -> tier s n = (2, "Good length (>=12)").
Proof.
  intros H. unfold tier. destruct (Z.geb_spec (len s) 12); [reflexivity|lia].
Qed.

(** X1: from twelve characters on, [min_length] plays no part: the call
    returns the same score and the same feedback whatever it is. *)
Theorem min_length_ignored_from_12 (s : list codepoint) (n n' : Z) (w : world) :
  12 <= len s ->
  check_password_strength (PyStr s) n w = check_password_strength (PyStr s) n' w.
Proof.
  intros H. rewrite !check_password_strength_str.
  unfold str_score, str_feedback. rewrite !(tier_from_12 s _ H). reflexivity.
Qed.

Lemma min_length_ignored_from_12_witness :
  check_password_strength (PyStr (str_of "correcthorse")) 8 empty_world
  = check_password_strength (PyStr (str_of "correcthorse")) 40 empty_world.
Proof.
  apply (min_length_ignored_from_12 (str_of "correcthorse") 8 40 empty_world).
  vm_compute. discriminate.
Defined.

Lemma tier_antitone s n n' : n <= n' -> fst (tier s n') <= fst (tier s n).
Proof.
  intros H. unfold tier. destruct (Z.geb_spec (len s) 12); [simpl; lia|].
  destruct (Z.geb_spec (len s) n), (Z.geb_spec (len s) n'); simpl; lia.
Qed.

(** X2: a larger [min_length] never gives the same password a higher
    score. *)
Theorem score_antitone_in_min_length (s : list codepoint) (n n' : Z) (w : world) :
  n <= n' ->
  exists score score' feedback feedback',
    fst (check_password_strength (PyStr s) n w) = Returned (score, feedback)
    /\ fst (check_password_strength (PyStr s) n' w)
       = Returned (score', feedback')
    /\ score' <= score.
Proof.
  intros H.
  exists (str_score s n), (str_score s n'), (str_feedback s n), (str_feedback s n').
  rewrite !check_password_strength_str.
  split; [reflexivity|]. split; [reflexivity|].
  unfold str_score. pose proof (tier_antitone s n n' H). lia.
Qed.

Lemma score_antitone_in_min_length_witness :
  exists score score' feedback feedback',
    fst (check_password_strength (PyStr (str_of "hunter2")) 6 empty_world)
    = Returned (score, feedback)
    /\ fst (check_password_strength (PyStr (str_of "hunter2")) 10 empty_world)
       = Returned (score', feedback')
    /\ score' <= score.
Proof.
  apply (score_antitone_in_min_length (str_of "hunter2") 6 10 empty_world).
  vm_compute. discriminate.
Defined.

(** X3: with a [min_length] of zero or less no string is too short, not
    even the empty one: the feedback starts with "Minimum length met" or
    "Good length (>=12)" and the score is at least 1. *)
Theorem non_positive_min_length_never_too_short
  (s : list codepoint) (n : Z) (w : world) :
  n <= 0 ->
  exists score feedback,
    check_password_strength (PyStr s) n w = (Returned (score, feedback), w)
    /\ ~ In "Too short" feedback
    /\ 1 <= score.
Proof.
  intros Hn. exists (str_score s n), (str_feedback s n).
  split; [apply check_password_strength_str|].
  assert (Hlen : 0 <= len s) by (unfold len; lia).
  assert (Ht : tier s n = (2, "Good length (>=12)")
               \/ tier s n = (1, "Minimum length met")).
  { unfold tier. destruct (Z.geb_spec (len s) 12); [auto|].
    destruct (Z.geb_spec (len s) n); [auto|lia]. }
  split.
  - unfold str_feedback. simpl. rewrite !in_app_iff, !In_entry.
    destruct Ht as [Ht|Ht]; rewrite Ht; simpl;
      intros [H|[H|[H|[H|H]]]]; try discriminate H;
      destruct H as [_ H]; discriminate H.
  - unfold str_score.
    for_each_class (fun cls => b2z_bounds (has_class cls s)).
    destruct Ht as [Ht|Ht]; rewrite Ht; simpl; lia.
Qed.

Lemma non_positive_min_length_never_too_short_witness :
  exists score feedback,
    check_password_strength (PyStr []) 0 empty_world
    = (Returned (score, feedback), empty_world)
    /\ ~ In "Too short" feedback
    /\ 1 <= score.
Proof.
  apply (non_positive_min_length_never_too_short [] 0 empty_world). lia.
Defined.

(** X4: with a [min_length] of 12 or more the middle tier cannot fire: no
    string gets "Minimum length met", the length rule gives 2 points or
    none. *)
Theorem min_length_from_12_skips_middle_tier
  (s : list codepoint) (n : Z) (w : world) :
  12 <= n ->
  exists score feedback,
    check_password_strength (PyStr s) n w = (Returned (score, feedback), w)
    /\ ~ In "Minimum length met" feedback
    /\ (forall sc fb,
          length_rule s n (sc, fb) = (sc + 2, fb ++ ["Good length (>=12)"])
          \/ length_rule s n (sc, fb) = (sc, fb ++ ["Too short"])).
Proof.
  intros Hn. exists (str_score s n), (str_feedback s n).
  split; [apply check_password_strength_str|].
  assert (Ht : tier s n = (2, "Good length (>=12)")
               \/ tier s n = (0, "Too short")).
  { unfold tier. destruct (Z.geb_spec (len s) 12); [auto|].
    destruct (Z.geb_spec (len s) n); [lia|auto]. }
  split.
  - unfold str_feedback. simpl. rewrite !in_app_iff, !In_entry.
    destruct Ht as [Ht|Ht]; rewrite Ht; simpl;
      intros [H|[H|[H|[H|H]]]]; try discriminate H;
      destruct H as [_ H]; discriminate H.
  - intros sc fb. rewrite length_rule_tier.
    destruct Ht as [Ht|Ht]; rewrite Ht; simpl; [left|right];
      [reflexivity|f_equal; lia].
Qed.

Lemma min_length_from_12_skips_middle_tier_witness :
  exists score feedback,
    check_password_strength (PyStr (str_of "elevenchars")) 16 empty_world
    = (Returned (score, feedback), empty_world)
    /\ ~ In "Minimum length met" feedback
    /\ (forall sc fb,
          length_rule (str_of "elevenchars") 16 (sc, fb)
          = (sc + 2, fb ++ ["Good length (>=12)"])
          \/ length_rule (str_of "elevenchars") 16 (sc, fb)
             = (sc, fb ++ ["Too short"])).
Proof.
  apply (min_length_from_12_skips_middle_tier (str_of "elevenchars") 16
           empty_world).
  lia.
Defined.

(** ** The extreme scores *)

Lemma has_class_true_iff s :
  (has_class re_upper s = true <-> occurs is_upper s)
  /\ (has_class re_lower s = true <-> occurs is_lower s)
  /\ (has_class re_digit s = true <-> occurs is_digit s)
  /\ (has_class re_special s = true <-> occurs is_special s).
Proof.
  split; [apply has_class_occurs; intros c; apply range_matches|].
  split; [apply has_class_occurs; intros c; apply range_matches|].
  split; [apply has_class_occurs; intros c; apply range_matches|].
  apply has_class_occurs, special_matches.
Qed.

Lemma b2z_1 b : Z.b2z b = 1 <-> b = true.
Proof. destruct b; simpl; split; intros H; try reflexivity; discriminate. Qed.

Lemma b2z_0 b : Z.b2z b = 0 <-> b <> true.
Proof. destruct b; simpl; split; intros H; congruence. Qed.

(** X5: a string gets the full score 6 exactly when it has twelve
    characters or more and an uppercase letter, a lowercase letter, a digit
    and a special character all occur in it. *)
Theorem full_score_iff (s : list codepoint) (n : Z) (w : world) :
  (exists feedback,
     fst (check_password_strength (PyStr s) n w) = Returned (6, feedback))
  <-> 12 <= len s
      /\ occurs is_upper s /\ occurs is_lower s
      /\ occurs is_digit s /\ occurs is_special s.
Proof.
  rewrite check_password_strength_str. simpl.
  destruct (has_class_true_iff s) as (Hu & Hl & Hd & Hs).
  rewrite <- Hu, <- Hl, <- Hd, <- Hs, <- (tier_fst_2 s n), <- !b2z_1.
  pose proof (tier_bounds s n).
  for_each_class (fun cls => b2z_bounds (has_class cls s)).
  unfold str_score. split.
  - intros [fb Heq]. injection Heq as Hsc _. lia.
  - intros (Ka & Kb & Kc & Kd & Ke). exists (str_feedback s n).
    do 2 f_equal. lia.
Qed.

(** With an int as [min_length], a string gets score 0 exactly when it is
    shorter than 12 and shorter than [min_length] and has no character of
    any of the four classes; the feedback is then ["Too short"] alone. *)
Lemma zero_score_iff_int (s : list codepoint) (n : Z) (w : world) :
  ((exists feedback,
      fst (check_password_strength (PyStr s) n w) = Returned (0, feedback))
   <-> len s < 12 /\ len s < n
       /\ ~ occurs is_upper s /\ ~ occurs is_lower s
       /\ ~ occurs is_digit s /\ ~ occurs is_special s)
  /\ (forall feedback,
        fst (check_password_strength (PyStr s) n w) = Returned (0, feedback)
        -> feedback = ["Too short"]).
Proof.
  rewrite check_password_strength_str. simpl.
  destruct (has_class_true_iff s) as (Hu & Hl & Hd & Hs).
  rewrite <- Hu, <- Hl, <- Hd, <- Hs, <- !b2z_0.
  pose proof (tier_bounds s n).
  pose proof (tier_fst_0 s n) as Ht0.
  for_each_class (fun cls => b2z_bounds (has_class cls s)).
  unfold str_score. split; [split|].
  - intros [fb Heq]. injection Heq as Hsc _.
    assert (fst (tier s n) = 0) as Ht by lia.
    apply Ht0 in Ht. repeat split; try lia.
  - intros (Ka & Kb & Kc & Kd & Ke & Kf). exists (str_feedback s n).
    assert (fst (tier s n) = 0) as Ht by (apply Ht0; lia).
    do 2 f_equal. lia.
  - intros fb Heq. injection Heq as Hsc <-.
    assert (fst (tier s n) = 0) as Ht by lia.
    assert (Hb : forall b, 0 <= Z.b2z b <= 1 -> Z.b2z b = 0 -> b = false).
    { intros [|] _ Hb0; [discriminate Hb0|reflexivity]. }
    unfold str_feedback.
    rewrite (Hb (has_class re_upper s)), (Hb (has_class re_lower s)),
      (Hb (has_class re_digit s)), (Hb (has_class re_special s)) by lia.
    simpl. f_equal.
    revert Ht. unfold tier.
    destruct (len s >=? 12); [simpl; lia|].
    destruct (len s >=? n); simpl; [lia|reflexivity].
Qed.

(** ** Score against feedback *)

(** X7: the score of a string can be read off its feedback: it is the
    number of class entries (the feedback without its first entry) plus 2,
    1 or 0 according to the first entry being "Good length (>=12)",
    "Minimum length met" or "Too short". *)
Theorem score_from_feedback (s : list codepoint) (n : Z) (w : world) :
  exists score first rest,
    fst (check_password_strength (PyStr s) n w)
    = Returned (score, first :: rest)
    /\ score
       = len rest
         + (if String.eqb first "Good length (>=12)" then 2
            else if String.eqb first "Minimum length met" then 1
            else 0).
Proof.
  exists (str_score s n), (snd (tier s n)).
  eexists. rewrite check_password_strength_str. split; [reflexivity|].
  unfold str_score, len. rewrite !length_app.
  unfold tier. destruct (len s >=? 12); [|destruct (len s >=? n)];
    destruct (has_class re_upper s), (has_class re_lower s),
      (has_class re_digit s), (has_class re_special s); reflexivity.
Qed.

(** ** Telling an error from a weak password *)


(** ** What the result depends on *)

Lemma has_class_false cls s :
  (forall c, In c s -> class_matches cls c = false) -> has_class cls s = false.
Proof.
  intros H. unfold has_class. induction s as [|c s IH]; [reflexivity|].
  simpl. rewrite (H c (or_introl eq_refl)). simpl.
  apply IH. intros d Hd. apply H. right. exact Hd.
Qed.

Lemma class_matches_false cls P c :
  (class_matches cls c = true <-> P c) -> ~ P c -> class_matches cls c = false.
Proof.
  intros Hiff Hn. destruct (class_matches cls c); [|reflexivity].
  exfalso. apply Hn, Hiff. reflexivity.
Qed.

(** X9: characters outside the four classes (a space, a dash, an accented
    or non-Latin letter, an emoji) earn nothing: when no character of the
    string is in A-Z, a-z, 0-9 or !@#$%^&*, the result is what the length
    rule alone gives, a score of at most 2 and a single feedback entry. *)
Theorem unclassified_characters_earn_nothing
  (s : list codepoint) (n : Z) (w : world) :
  (forall c, In c s ->
     ~ is_upper c /\ ~ is_lower c /\ ~ is_digit c /\ ~ is_special c) ->
  check_password_strength (PyStr s) n w
  = (Returned (length_rule s n (0, [])), w).
Proof.
  intros H. rewrite check_password_strength_str, length_rule_tier.
  unfold str_score, str_feedback.
  assert (Hu : has_class re_upper s = false).
  { apply has_class_false. intros c Hc.
    apply (class_matches_false _ is_upper c (range_matches _ _ c)), (H c Hc). }
  assert (Hl : has_class re_lower s = false).
  { apply has_class_false. intros c Hc.
    apply (class_matches_false _ is_lower c (range_matches _ _ c)), (H c Hc). }
  assert (Hd : has_class re_digit s = false).
  { apply has_class_false. intros c Hc.
    apply (class_matches_false _ is_digit c (range_matches _ _ c)), (H c Hc). }
  assert (Hs : has_class re_special s = false).
  { apply has_class_false. intros c Hc.
    apply (class_matches_false _ is_special c (special_matches c)), (H c Hc). }
  rewrite Hu, Hl, Hd, Hs. simpl. rewrite !Z.add_0_r. reflexivity.
Qed.

(** "é", a space, "ß", "_", the euro sign, "-" and an emoji. *)
Lemma unclassified_characters_earn_nothing_witness :
  check_password_strength
    (PyStr [233; 32; 223; 95; 8364; 45; 128512; 46; 1046]) 8 empty_world
  = (Returned (1, ["Minimum length met"]), empty_world).
Proof.
  apply (unclassified_characters_earn_nothing
           [233; 32; 223; 95; 8364; 45; 128512; 46; 1046] 8 empty_world).
  intros c Hc. unfold is_upper, is_lower, is_digit, is_special.
  simpl in Hc.
  repeat (destruct Hc as [<-|Hc];
          [vm_compute; repeat split; intros K; intuition discriminate|]).
  destruct Hc.
Defined.

Lemma has_class_same_characters cls s s' :
  (forall c, In c s <-> In c s') -> has_class cls s = has_class cls s'.
Proof.
  intros H. unfold has_class.
  apply eq_true_iff_eq. rewrite !existsb_exists.
  split; intros [c [Hin Hc]]; exists c; split; auto; apply H; exact Hin.
Qed.

(** X10: the result depends on the string through its length and the set
    of its characters only: two strings of the same length in which the
    same characters occur, in whatever order and number, get the same
    score and the same feedback. *)
Theorem result_depends_on_length_and_characters
  (s s' : list codepoint) (n : Z) (w : world) :
  len s = len s' -> (forall c, In c s <-> In c s') ->
  check_password_strength (PyStr s) n w = check_password_strength (PyStr s') n w.
Proof.
  intros Hlen Hin. rewrite !check_password_strength_str.
  unfold str_score, str_feedback, tier.
  rewrite Hlen, !(has_class_same_characters _ s s' Hin). reflexivity.
Qed.

Lemma result_depends_on_length_and_characters_witness :
  check_password_strength (PyStr (str_of "aab1")) 4 empty_world
  = check_password_strength (PyStr (str_of "1bba")) 4 empty_world.
Proof.
  apply (result_depends_on_length_and_characters
           (str_of "aab1") (str_of "1bba") 4 empty_world).
  - reflexivity.
  - intros c. vm_compute. tauto.
Defined.

(** * Further properties of [load_config] *)

(** What the body of the [try] raises is an [Exception], and the fallback
    logs it and returns the default. *)
Lemma load_config_try_raised config_file w e :
  fst (load_config_try config_file w) = Raised e ->
  load_config config_file w
  = (Returned default_settings,
     MkWorld (files w)
       (log_records w ++ [(ERROR, "Failed to load config: " +:+ exn_str e)])
       (stdout w)).
Proof.
  unfold load_config, try_except, load_config_try, bind, ConfigParser_read.
  destruct (files w !! config_file) as [[|err|sections]|]; simpl;
    try (intros H; injection H as <-; reflexivity).
  unfold ConfigParser_getitem. rewrite (right_id_L empty union sections).
  destruct (sections !! "Settings"); simpl; intros H;
    [discriminate H|injection H as <-; reflexivity].
Qed.

Lemma load_config_try_returned config_file w settings :
  fst (load_config_try config_file w) = Returned settings ->
  load_config config_file w = (Returned settings, w).
Proof.
  unfold load_config, try_except, load_config_try, bind, ConfigParser_read.
  destruct (files w !! config_file) as [[|err|sections]|]; simpl;
    try (intros H; discriminate H).
  unfold ConfigParser_getitem. rewrite (right_id_L empty union sections).
  destruct (sections !! "Settings"); simpl; intros H;
    [injection H as <-; reflexivity|discriminate H].
Qed.

(** X11: [load_config] prints nothing and leaves the files alone.  It logs
    nothing when it returns the section [Settings] of the file; otherwise
    it logs one record at level ERROR that names the failure: the file
    that was not found (missing or not openable), the error of the parser,
    or the missing section as ['Settings']. *)
Theorem load_config_effects (config_file : string) (w : world) :
  stdout (snd (load_config config_file w)) = stdout w
  /\ files (snd (load_config config_file w)) = files w
  /\ log_records (snd (load_config config_file w))
     = log_records w
       ++ match files w !! config_file with
          | Some (Parsed sections) =>
              match sections !! "Settings" with
              | Some _ => []
              | None => [(ERROR, "Failed to load config: 'Settings'")]
              end
          | Some (Malformed err) => [(ERROR, "Failed to load config: " +:+ err)]
          | Some Unreadable | None =>
              [(ERROR,
                "Failed to load config: Config file " +:+ config_file
                +:+ " not found")]
          end.
Proof.
  unfold load_config, try_except, load_config_try, bind, ConfigParser_read.
  destruct (files w !! config_file) as [[|err|sections]|]; simpl; auto.
  unfold ConfigParser_getitem. rewrite (right_id_L empty union sections).
  destruct (sections !! "Settings"); simpl; rewrite ?app_nil_r; auto.
Qed.

(** * The process: [setup_logging], [main] and the script *)

(** ** The root logger *)

Lemma emit_untouched record p h : untouched_by_logging p (emit record p h).
Proof. destruct h; repeat split. Qed.

Lemma untouched_refl p : untouched_by_logging p p.
Proof. repeat split. Qed.

Lemma untouched_trans p p' p'' :
  untouched_by_logging p p' -> untouched_by_logging p' p'' ->
  untouched_by_logging p p''.
Proof.
  intros (H1 & H2 & H3) (K1 & K2 & K3). repeat split; congruence.
Qed.

Lemma fold_emit_untouched record hs p :
  untouched_by_logging p (List.fold_left (emit record) hs p).
Proof.
  revert p. induction hs as [|h hs IH]; intros p; simpl.
  - apply untouched_refl.
  - eapply untouched_trans; [apply (emit_untouched record p h)|apply IH].
Qed.

Lemma root_handle_untouched p record :
  untouched_by_logging p (root_handle p record).
Proof.
  unfold root_handle.
  set (p1 := match handlers (root p) with
             | [] => set_root (MkRoot [StreamHandler] (root_level (root p))) p
             | _ :: _ => p
             end).
  assert (H1 : untouched_by_logging p p1).
  { unfold p1. destruct (handlers (root p)); repeat split. }
  destruct (levelno (fst record) >=? root_level (root p1)); [|exact H1].
  eapply untouched_trans; [exact H1|apply fold_emit_untouched].
Qed.

Lemma fold_root_handle_untouched calls p :
  untouched_by_logging p (List.fold_left root_handle calls p).
Proof.
  revert p. induction calls as [|c calls IH]; intros p; simpl.
  - apply untouched_refl.
  - eapply untouched_trans; [apply (root_handle_untouched p c)|apply IH].
Qed.

(** Running a function of the world in the process: same result, same
    world, and nothing else than the logger and its outputs changes. *)
Lemma run_world {A : Type} (m : M A) p :
  fst (run m p)
  = match fst (m (proc_world p)) with
    | Returned a => Normal a
    | Raised e => Abrupt (Exc e)
    end
  /\ proc_world (snd (run m p)) = snd (m (proc_world p))
  /\ stderr (snd (run m p)) = stderr p
  /\ unwritable (snd (run m p)) = unwritable p.
Proof.
  unfold run. destruct (m (proc_world p)) as [o w'].
  set (calls := List.skipn _ _).
  destruct (fold_root_handle_untouched calls (set_world w' p)) as (H1 & H2 & H3).
  destruct o; simpl; repeat split; assumption.
Qed.

Lemma set_world_same p : set_world (proc_world p) p = p.
Proof. destruct p; reflexivity. Qed.

(** A function that logs nothing leaves the process as it is. *)
Lemma run_silent {A : Type} (m : M A) p a :
  m (proc_world p) = (Returned a, proc_world p) ->
  run m p = (Normal a, p).
Proof.
  intros H. unfold run. rewrite H, skipn_all, set_world_same. reflexivity.
Qed.

(** A function that makes one logging call hands it to the root logger. *)
Lemma run_one_call {A : Type} (m : M A) p a record :
  m (proc_world p)
  = (Returned a,
     MkWorld (files (proc_world p)) (log_records (proc_world p) ++ [record])
       (stdout (proc_world p))) ->
  run m p
  = (Normal a,
     root_handle
       (set_world
          (MkWorld (files (proc_world p))
             (log_records (proc_world p) ++ [record]) (stdout (proc_world p)))
          p)
       record).
Proof.
  intros H. unfold run. rewrite H. simpl.
  rewrite drop_app_length. reflexivity.
Qed.

Lemma run_check_str s n p :
  run (check_password_strength (PyStr s) n) p
  = (Normal (str_score s n, str_feedback s n), p).
Proof. apply run_silent, check_password_strength_str. Qed.

Lemma for_in_print (f : string -> string) items p :
  for_in items (fun msg => print (f msg)) p
  = (Normal tt,
     set_world
       (MkWorld (files (proc_world p)) (log_records (proc_world p))
          (stdout (proc_world p) ++ List.map f items))
       p).
Proof.
  revert p. induction items as [|x items IH]; intros p; simpl.
  - unfold retP. rewrite app_nil_r.
    destruct p as [[fs lr so] se r co lf uw]; reflexivity.
  - unfold bindP, print. simpl. rewrite IH. simpl.
    rewrite <- app_assoc. reflexivity.
Qed.

(** ** [setup_logging] *)

Lemma setup_logging_fails log_file p err :
  unwritable p !! log_file = Some err ->
  setup_logging log_file p
  = (Abrupt (SystemExit 1),
     MkProcess (proc_world p)
       (stderr p ++ ["Failed to setup logging: " +:+ err])
       (root p) (console p) (log_files p) (unwritable p)).
Proof.
  intros H. unfold setup_logging, try_exceptP, bindP, open_log_file.
  rewrite H. reflexivity.
Qed.

Lemma setup_logging_succeeds log_file p :
  unwritable p !! log_file = None ->
  setup_logging log_file p
  = (Normal tt,
     MkProcess (proc_world p) (stderr p)
       match handlers (root p) with
       | [] => MkRoot [FileHandler log_file; StreamHandler] (levelno INFO)
       | _ :: _ => root p
       end
       (console p)
       (<[log_file := default [] (log_files p !! log_file)]> (log_files p))
       (unwritable p)).
Proof.
  intros H. unfold setup_logging, try_exceptP, bindP, open_log_file, basicConfig.
  rewrite H. simpl. destruct (handlers (root p)); reflexivity.
Qed.

(** X12: [setup_logging] lets no exception out.  When the directories of
    the log file cannot be made or the file cannot be opened, it prints
    the one line "Failed to setup logging: ..." to standard error and
    exits with status 1, the logger left as it was.  Otherwise it returns;
    the log file then exists with the content it had, and the root logger
    gets the file handler and the console handler at level INFO only if
    it had no handler before: a logger that is configured already stays
    as it is. *)
Theorem setup_logging_outcome (log_file : string) (p : process) :
  setup_logging log_file p
  = match unwritable p !! log_file with
    | Some err =>
        (Abrupt (SystemExit 1),
         MkProcess (proc_world p)
           (stderr p ++ ["Failed to setup logging: " +:+ err])
           (root p) (console p) (log_files p) (unwritable p))
    | None =>
        (Normal tt,
         MkProcess (proc_world p) (stderr p)
           (if decide (handlers (root p) = [])
            then MkRoot [FileHandler log_file; StreamHandler] 20
            else root p)
           (console p)
           (<[log_file := default [] (log_files p !! log_file)]> (log_files p))
           (unwritable p))
    end.
Proof.
  destruct (unwritable p !! log_file) as [err|] eqn:H.
  - apply setup_logging_fails, H.
  - rewrite (setup_logging_succeeds _ _ H).
    destruct (handlers (root p)); reflexivity.
Qed.

(** ** [main] *)

Lemma load_config_returns config_file w :
  exists settings,
    load_config config_file w
    = (Returned settings, snd (load_config config_file w))
    /\ files (snd (load_config config_file w)) = files w
    /\ stdout (snd (load_config config_file w)) = stdout w.
Proof.
  destruct (fst (load_config_try config_file w)) as [settings|e] eqn:H.
  - exists settings. rewrite (load_config_try_returned _ _ _ H). auto.
  - exists default_settings. rewrite (load_config_try_raised _ _ _ H). auto.
Qed.

Lemma logging_info_world msg p :
  fst (logging_info msg p) = Normal tt
  /\ proc_world (snd (logging_info msg p))
     = MkWorld (files (proc_world p))
         (log_records (proc_world p) ++ [(INFO, msg)])
         (stdout (proc_world p))
  /\ stderr (snd (logging_info msg p)) = stderr p
  /\ unwritable (snd (logging_info msg p)) = unwritable p.
Proof. apply (run_world (logging_call INFO msg) p). Qed.

Lemma logging_info_handled msg p :
  logging_info msg p
  = (Normal tt,
     root_handle
       (set_world
          (MkWorld (files (proc_world p))
             (log_records (proc_world p) ++ [(INFO, msg)])
             (stdout (proc_world p)))
          p)
       (INFO, msg)).
Proof. unfold logging_info. apply run_one_call. reflexivity. Qed.

(** The steps of [main] on a state that is spelled out. *)
Lemma logging_info_step msg fs lr so se r co lfs uw :
  logging_info msg (MkProcess (MkWorld fs lr so) se r co lfs uw)
  = (Normal tt,
     root_handle
       (MkProcess (MkWorld fs (lr ++ [(INFO, msg)]) so) se r co lfs uw)
       (INFO, msg)).
Proof. apply logging_info_handled. Qed.

Lemma print_step line fs lr so se r co lfs uw :
  print line (MkProcess (MkWorld fs lr so) se r co lfs uw)
  = (Normal tt, MkProcess (MkWorld fs lr (so ++ [line])) se r co lfs uw).
Proof. reflexivity. Qed.

Lemma for_in_print_step (f : string -> string) items fs lr so se r co lfs uw :
  for_in items (fun msg => print (f msg))
    (MkProcess (MkWorld fs lr so) se r co lfs uw)
  = (Normal tt,
     MkProcess (MkWorld fs lr (so ++ List.map f items)) se r co lfs uw).
Proof. apply for_in_print. Qed.

Lemma setup_logging_step log_file w se r co lfs uw :
  uw !! log_file = None ->
  setup_logging log_file (MkProcess w se r co lfs uw)
  = (Normal tt,
     MkProcess w se
       match handlers r with
       | [] => MkRoot [FileHandler log_file; StreamHandler] (levelno INFO)
       | _ :: _ => r
       end
       co (<[log_file := default [] (lfs !! log_file)]> lfs) uw).
Proof.
  intros H.
  apply (setup_logging_succeeds log_file (MkProcess w se r co lfs uw) H).
Qed.

(** An INFO record at a root logger with the two handlers of
    [setup_logging]: written to the file and to the console. *)
Lemma root_handle_written msg log_file w se co lfs uw :
  root_handle
    (MkProcess w se (MkRoot [FileHandler log_file; StreamHandler] 20) co lfs uw)
    (INFO, msg)
  = MkProcess w se (MkRoot [FileHandler log_file; StreamHandler] 20)
      (co ++ [(INFO, msg)])
      (<[log_file := default [] (lfs !! log_file) ++ [(INFO, msg)]]> lfs) uw.
Proof. reflexivity. Qed.

(** An INFO record at the root logger that [logging] configured on its
    own: dropped. *)
Lemma root_handle_dropped msg w se co lfs uw :
  root_handle (MkProcess w se (MkRoot [StreamHandler] WARNING) co lfs uw)
    (INFO, msg)
  = MkProcess w se (MkRoot [StreamHandler] WARNING) co lfs uw.
Proof. reflexivity. Qed.

(** An ERROR record at a root logger without handlers: [logging]
    configures the console handler and writes the record there. *)
Lemma root_handle_first_error msg w se co lfs uw :
  root_handle (MkProcess w se root_at_start co lfs uw) (ERROR, msg)
  = MkProcess w se (MkRoot [StreamHandler] WARNING) (co ++ [(ERROR, msg)])
      lfs uw.
Proof. reflexivity. Qed.

Lemma run_ext {A : Type} (m m' : M A) p :
  (forall w, m w = m' w) -> run m p = run m' p.
Proof. intros H. unfold run. rewrite H. reflexivity. Qed.

Section ScriptFacts.

Variable interpolate : gmap string string -> string -> string -> string + string.

(** On the default dict [get] gives the default path, whatever the
    interpolation of the library does. *)
Lemma Settings_get_default :
  Settings_get interpolate default_settings "log_file"
    "logs/password_checker.log"
  = Returned "logs/password_checker.log".
Proof. reflexivity. Qed.

(** What [get] raises is an [InterpolationError]. *)
Lemma Settings_get_raised settings key fallback e :
  Settings_get interpolate settings key fallback = Raised e ->
  exists msg, e = MkExn InterpolationError msg.
Proof.
  unfold Settings_get. destruct (settings !! key) as [value|]; [|discriminate].
  destruct (contains "%" value); [|discriminate].
  destruct (interpolate settings key value) as [result|err]; [discriminate|].
  intros H. injection H as <-. exists err. reflexivity.
Qed.

(** The first two steps of [main]: [load_config], then [config.get]. *)
Lemma main_first_steps args p :
  exists settings p1,
    load_config (args_config args) (proc_world p)
    = (Returned settings, snd (load_config (args_config args) (proc_world p)))
    /\ run (load_config (args_config args)) p = (Normal settings, p1)
    /\ proc_world p1 = snd (load_config (args_config args) (proc_world p))
    /\ stderr p1 = stderr p
    /\ unwritable p1 = unwritable p
    /\ log_file_of interpolate (args_config args) (proc_world p)
       = Settings_get interpolate settings "log_file"
           "logs/password_checker.log".
Proof.
  destruct (load_config_returns (args_config args) (proc_world p))
    as (settings & Hlc & _ & _).
  destruct (run_world (load_config (args_config args)) p) as (R1 & R2 & R3 & R4).
  rewrite Hlc in R1, R2. simpl in R1, R2.
  destruct (run (load_config (args_config args)) p) as [c1 p1].
  simpl in R1, R2, R3, R4. subst c1.
  exists settings, p1.
  split; [exact Hlc|]. split; [reflexivity|]. split; [exact R2|].
  split; [exact R3|]. split; [exact R4|].
  unfold log_file_of. rewrite Hlc. reflexivity.
Qed.

(** [main] from the side of the world: when [config.get] returns a path
    and the log file can be set up there, [main] returns, prints the report
    and makes its two logging calls. *)
Lemma main_completes args p log_file :
  log_file_of interpolate (args_config args) (proc_world p)
  = Returned log_file ->
  unwritable p !! log_file = None ->
  fst (main interpolate args p) = Normal tt
  /\ proc_world (snd (main interpolate args p))
     = MkWorld (files (proc_world p))
         (log_records (snd (load_config (args_config args) (proc_world p)))
          ++ [(INFO,
               "Checking password strength (length: "
               +:+ pretty (len (args_password args)) +:+ ")");
              (INFO,
               "Password scored "
               +:+ pretty (str_score (args_password args) (args_min_length args))
               +:+ "/6")])
         (stdout (proc_world p)
          ++ report (str_score (args_password args) (args_min_length args))
               (str_feedback (args_password args) (args_min_length args)))
  /\ stderr (snd (main interpolate args p)) = stderr p
  /\ unwritable (snd (main interpolate args p)) = unwritable p.
Proof.
  intros Hget Hw.
  destruct (main_first_steps args p)
    as (settings & p1 & Hlc & Hrun & R2 & R3 & R4 & Hlf).
  destruct (load_config_returns (args_config args) (proc_world p))
    as (settings' & _ & Hfiles & Hout).
  rewrite Hlf in Hget.
  destruct (main interpolate args p) as [c pf] eqn:Hm.
  unfold main, bindP in Hm. rewrite Hrun, Hget in Hm.
  unfold lift in Hm.
  rewrite setup_logging_succeeds in Hm by (rewrite R4; exact Hw).
  match type of Hm with context [logging_info ?m ?q] =>
    destruct (logging_info_world m q) as (I1 & I2 & I3 & I4);
    destruct (logging_info m q) as [c3 p3]
  end.
  simpl in I1, I2, I3, I4. subst c3.
  rewrite run_check_str in Hm. unfold print at 1 in Hm.
  rewrite (for_in_print (fun msg => "- " +:+ msg)) in Hm.
  match type of Hm with logging_info ?m ?q = _ =>
    destruct (logging_info_world m q) as (J1 & J2 & J3 & J4)
  end.
  rewrite Hm in J1, J2, J3, J4. simpl in J1, J2, J3, J4. simpl.
  split; [exact J1|]. split.
  - rewrite J2, I2, R2, Hfiles, Hout. unfold report. simpl.
    rewrite <- !app_assoc. reflexivity.
  - rewrite J3, J4, I3, I4, R3, R4. auto.
Qed.

(** X13: when [config.get] returns a path (no interpolation error) and the
    log file can be set up there, [main] returns and prints the result of
    [check_password_strength] for the password and minimum length of the
    command line: the line "Password Score: <score>/6", then one line
    "- <entry>" for each feedback entry in order. *)
Theorem main_prints_report (args : Namespace) (p : process) (log_file : string) :
  log_file_of interpolate (args_config args) (proc_world p)
  = Returned log_file ->
  unwritable p !! log_file = None ->
  exists score feedback,
    (forall w,
       check_password_strength (PyStr (args_password args))
         (args_min_length args) w
       = (Returned (score, feedback), w))
    /\ fst (main interpolate args p) = Normal tt
    /\ stdout (proc_world (snd (main interpolate args p)))
       = stdout (proc_world p)
         ++ ("Password Score: " +:+ pretty score +:+ "/6")
            :: List.map (fun msg => "- " +:+ msg) feedback.
Proof.
  intros Hget Hw.
  exists (str_score (args_password args) (args_min_length args)),
    (str_feedback (args_password args) (args_min_length args)).
  destruct (main_completes args p log_file Hget Hw) as (H1 & H2 & H3 & H4).
  split; [intros w; apply check_password_strength_str|].
  split; [exact H1|].
  rewrite H2. reflexivity.
Qed.

(** ** What reaches the log file *)

(** X14: with a configuration file that has a section [Settings], a path
    that [config.get] returns for [log_file] (the option as written when
    it has no [%], logs/password_checker.log when the section has no such
    option), a log file that can be set up there and a root logger without
    handlers, [main] appends its two records, "Checking password strength
    (length: N)" and "Password scored S/6", to that log file, after what
    the file held, and writes the same two records to the console. *)
Theorem main_logs_to_file
  (args : Namespace) (p : process) (sections : gmap string (gmap string string))
  (settings : gmap string string) (log_file : string) :
  files (proc_world p) !! args_config args = Some (Parsed sections) ->
  sections !! "Settings" = Some settings ->
  Settings_get interpolate settings "log_file" "logs/password_checker.log"
  = Returned log_file ->
  unwritable p !! log_file = None ->
  handlers (root p) = [] ->
  exists score feedback,
    (forall w,
       check_password_strength (PyStr (args_password args))
         (args_min_length args) w
       = (Returned (score, feedback), w))
    /\ fst (main interpolate args p) = Normal tt
    /\ log_files (snd (main interpolate args p)) !! log_file
       = Some
           (default [] (log_files p !! log_file)
            ++ [(INFO,
                 "Checking password strength (length: "
                 +:+ pretty (len (args_password args)) +:+ ")");
                (INFO, "Password scored " +:+ pretty score +:+ "/6")])
    /\ console (snd (main interpolate args p))
       = console p
         ++ [(INFO,
              "Checking password strength (length: "
              +:+ pretty (len (args_password args)) +:+ ")");
             (INFO, "Password scored " +:+ pretty score +:+ "/6")].
Proof.
  intros Hf Hs Hget Hw Hh.
  exists (str_score (args_password args) (args_min_length args)),
    (str_feedback (args_password args) (args_min_length args)).
  split; [intros w; apply check_password_strength_str|].
  unfold main, bindP.
  rewrite (run_silent _ p settings (load_config_section _ _ _ _ Hf Hs)).
  rewrite Hget. unfold lift.
  destruct p as [[fs lr so] se [hs lvl] co lfs uw].
  simpl in Hf, Hw, Hh. subst hs.
  rewrite (setup_logging_step _ _ _ _ _ _ _ Hw). cbn [handlers levelno].
  rewrite logging_info_step, root_handle_written, run_check_str, print_step.
  rewrite (for_in_print_step (fun msg => "- " +:+ msg)).
  rewrite logging_info_step, root_handle_written.
  cbn [fst snd log_files console].
  rewrite !lookup_insert_eq. cbn [default from_option id].
  rewrite <- !app_assoc. repeat split; reflexivity.
Qed.

(** X15: when [load_config] falls back (its [try] raised [e]) in a process
    that has not used [logging] before, nothing [main] logs reaches the
    log file.  The error record of [load_config] makes [logging] configure
    the root logger on its own, with a console handler at level WARNING,
    and [setup_logging] then leaves that configuration as it is: the
    default log file is created (its content kept) but gets no record, the
    console gets the error record only, and the two INFO calls of [main]
    are made and dropped. *)
Theorem main_fallback_logs_nothing_to_file
  (args : Namespace) (p : process) (e : exn) :
  fst (load_config_try (args_config args) (proc_world p)) = Raised e ->
  root p = root_at_start ->
  unwritable p !! "logs/password_checker.log" = None ->
  exists score feedback,
    (forall w,
       check_password_strength (PyStr (args_password args))
         (args_min_length args) w
       = (Returned (score, feedback), w))
    /\ fst (main interpolate args p) = Normal tt
    /\ log_files (snd (main interpolate args p))
       = <[ "logs/password_checker.log" :=
              default [] (log_files p !! "logs/password_checker.log") ]>
           (log_files p)
    /\ console (snd (main interpolate args p))
       = console p ++ [(ERROR, "Failed to load config: " +:+ exn_str e)]
    /\ root (snd (main interpolate args p)) = MkRoot [StreamHandler] WARNING
    /\ log_records (proc_world (snd (main interpolate args p)))
       = log_records (proc_world p)
         ++ [(ERROR, "Failed to load config: " +:+ exn_str e);
             (INFO,
              "Checking password strength (length: "
              +:+ pretty (len (args_password args)) +:+ ")");
             (INFO, "Password scored " +:+ pretty score +:+ "/6")].
Proof.
  intros He Hr Hw.
  exists (str_score (args_password args) (args_min_length args)),
    (str_feedback (args_password args) (args_min_length args)).
  split; [intros w; apply check_password_strength_str|].
  unfold main, bindP.
  rewrite (run_one_call _ p default_settings _
             (load_config_try_raised _ _ _ He)).
  rewrite Settings_get_default. unfold lift.
  destruct p as [[fs lr so] se r co lfs uw]. simpl in Hr, Hw. subst r.
  unfold set_world.
  cbn [proc_world files log_records stdout stderr root console log_files
         unwritable].
  rewrite root_handle_first_error.
  rewrite (setup_logging_step _ _ _ _ _ _ _ Hw). cbn [handlers].
  rewrite logging_info_step, root_handle_dropped, run_check_str, print_step.
  rewrite (for_in_print_step (fun msg => "- " +:+ msg)).
  rewrite logging_info_step, root_handle_dropped.
  cbn [fst snd log_files console root proc_world log_records].
  rewrite <- !app_assoc. repeat split; reflexivity.
Qed.

(** ** The script *)

Lemma main_setup_fails args p log_file err :
  log_file_of interpolate (args_config args) (proc_world p)
  = Returned log_file ->
  unwritable p !! log_file = Some err ->
  fst (main interpolate args p) = Abrupt (SystemExit 1)
  /\ proc_world (snd (main interpolate args p))
     = snd (load_config (args_config args) (proc_world p))
  /\ stderr (snd (main interpolate args p))
     = stderr p ++ ["Failed to setup logging: " +:+ err].
Proof.
  intros Hget Hw.
  destruct (main_first_steps args p)
    as (settings & p1 & Hlc & Hrun & R2 & R3 & R4 & Hlf).
  rewrite Hlf in Hget.
  unfold main, bindP. rewrite Hrun, Hget. unfold lift.
  rewrite (setup_logging_fails _ p1 err) by (rewrite R4; exact Hw).
  simpl. rewrite R3. auto.
Qed.

Lemma main_get_raises args p e :
  log_file_of interpolate (args_config args) (proc_world p) = Raised e ->
  exists p1,
    main interpolate args p = (Abrupt (Exc e), p1)
    /\ proc_world p1 = snd (load_config (args_config args) (proc_world p))
    /\ stderr p1 = stderr p.
Proof.
  intros Hget.
  destruct (main_first_steps args p)
    as (settings & p1 & Hlc & Hrun & R2 & R3 & R4 & Hlf).
  rewrite Hlf in Hget. exists p1.
  unfold main, bindP. rewrite Hrun, Hget. unfold lift. auto.
Qed.

(** X16: the script ends with status 1 in two cases, and with status 0
    otherwise.  When [config.get] raises an interpolation error for
    [log_file], the second [except] clause of the script logs "Unexpected
    error: ..." at level CRITICAL and exits with 1.  When the log file
    cannot be set up, the [SystemExit] of [setup_logging] passes both
    [except] clauses and [print] has put the one line "Failed to setup
    logging: ..." on standard error.  In both cases nothing is printed to
    standard output and the password is not checked.  Otherwise the script
    does what [main] does and ends with status 0. *)
Theorem script_exit_status (args : Namespace) (p : process) :
  match log_file_of interpolate (args_config args) (proc_world p) with
  | Raised e =>
      exit_status (fst (script interpolate args p)) = 1
      /\ stdout (proc_world (snd (script interpolate args p)))
         = stdout (proc_world p)
      /\ log_records (proc_world (snd (script interpolate args p)))
         = log_records (snd (load_config (args_config args) (proc_world p)))
           ++ [(CRITICAL, "Unexpected error: " +:+ exn_str e)]
      /\ stderr (snd (script interpolate args p)) = stderr p
  | Returned log_file =>
      match unwritable p !! log_file with
      | Some err =>
          exit_status (fst (script interpolate args p)) = 1
          /\ stdout (proc_world (snd (script interpolate args p)))
             = stdout (proc_world p)
          /\ log_records (proc_world (snd (script interpolate args p)))
             = log_records (snd (load_config (args_config args) (proc_world p)))
          /\ stderr (snd (script interpolate args p))
             = stderr p ++ ["Failed to setup logging: " +:+ err]
      | None =>
          exit_status (fst (script interpolate args p)) = 0
          /\ script interpolate args p = main interpolate args p
      end
  end.
Proof.
  destruct (load_config_returns (args_config args) (proc_world p))
    as (settings' & _ & _ & Hout).
  destruct (log_file_of interpolate (args_config args) (proc_world p))
    as [log_file|e] eqn:Hget.
  - destruct (unwritable p !! log_file) as [err|] eqn:Hw.
    + destruct (main_setup_fails args p log_file err Hget Hw) as (H1 & H2 & H3).
      unfold script. destruct (main interpolate args p) as [c pf].
      simpl in H1, H2, H3. subst c. simpl. rewrite H2, H3, Hout. auto.
    + destruct (main_completes args p log_file Hget Hw) as (H1 & _).
      unfold script. destruct (main interpolate args p) as [c pf].
      simpl in H1. subst c. simpl. auto.
  - destruct (main_get_raises args p e Hget) as (p1 & Hm & H2 & H3).
    destruct (main_first_steps args p)
      as (settings & p0 & _ & _ & _ & _ & _ & Hlf).
    rewrite Hlf in Hget.
    destruct (Settings_get_raised _ _ _ _ Hget) as [msg ->].
    unfold script. rewrite Hm. cbn [signal_is_Exception is_Exception
      exn_class_of signal_str exn_str].
    unfold bindP, logging_critical.
    destruct (run_world (logging_call CRITICAL ("Unexpected error: " +:+ msg)) p1)
      as (C1 & C2 & C3 & C4).
    destruct (run (logging_call CRITICAL ("Unexpected error: " +:+ msg)) p1)
      as [c2 p2].
    simpl in C1, C2, C3, C4. subst c2. unfold sys_exit. simpl.
    rewrite C2, C3, H2, H3. simpl. rewrite Hout. auto.
Qed.

(** X17: the password is written nowhere.  What the script does, its exit
    status, what it prints, what it logs and where, depends on the
    password through its length and the result of
    [check_password_strength] only: two command lines that differ in
    passwords of the same length and the same result leave the process in
    the same state. *)
Theorem script_reveals_length_and_result_only
  (config_file : string) (n : Z) (pw pw' : list codepoint) (p : process) :
  len pw = len pw' ->
  (forall w,
     check_password_strength (PyStr pw) n w
     = check_password_strength (PyStr pw') n w) ->
  script interpolate (MkNamespace pw n config_file) p
  = script interpolate (MkNamespace pw' n config_file) p.
Proof.
  intros Hlen Hres.
  assert (Hmain : main interpolate (MkNamespace pw n config_file) p
                  = main interpolate (MkNamespace pw' n config_file) p).
  { unfold main, bindP. cbn [args_password args_min_length args_config].
    rewrite Hlen.
    destruct (run (load_config config_file) p) as [[settings|sg] p1];
      [|reflexivity].
    destruct (lift _ p1) as [[log_file|sg] p1']; [|reflexivity].
    destruct (setup_logging _ p1') as [[[]|sg] p2]; [|reflexivity].
    destruct (logging_info _ p2) as [[[]|sg] p3]; [|reflexivity].
    rewrite (run_ext _ _ p3 Hres). reflexivity. }
  unfold script. rewrite Hmain. reflexivity.
Qed.

End ScriptFacts.

Lemma main_prints_report_witness :
  exists score feedback,
    (forall w,
       check_password_strength (PyStr (str_of "Ab1!efgh")) 8 w
       = (Returned (score, feedback), w))
    /\ fst (main (fun _ _ value => inl value)
              (MkNamespace (str_of "Ab1!efgh") 8 "config.ini")
              (process_at_start
                 {[ "config.ini" :=
                      Parsed {[ "Settings" := {[ "log_file" := "run.log" ]} ]} ]}
                 empty))
       = Normal tt
    /\ stdout
         (proc_world
            (snd (main (fun _ _ value => inl value)
                    (MkNamespace (str_of "Ab1!efgh") 8 "config.ini")
                    (process_at_start
                       {[ "config.ini" :=
                            Parsed
                              {[ "Settings" := {[ "log_file" := "run.log" ]} ]} ]}
                       empty))))
       = stdout
           (proc_world
              (process_at_start
                 {[ "config.ini" :=
                      Parsed {[ "Settings" := {[ "log_file" := "run.log" ]} ]} ]}
                 empty))
         ++ ("Password Score: " +:+ pretty score +:+ "/6")
            :: List.map (fun msg => "- " +:+ msg) feedback.
Proof.
  apply (main_prints_report (fun _ _ value => inl value)
           (MkNamespace (str_of "Ab1!efgh") 8 "config.ini")
           (process_at_start
              {[ "config.ini" :=
                   Parsed {[ "Settings" := {[ "log_file" := "run.log" ]} ]} ]}
              empty)
           "run.log");
    reflexivity.
Defined.

Lemma main_logs_to_file_witness :
  exists score feedback,
    (forall w,
       check_password_strength (PyStr (str_of "Ab1!efgh")) 8 w
       = (Returned (score, feedback), w))
    /\ fst (main (fun _ _ value => inl value)
              (MkNamespace (str_of "Ab1!efgh") 8 "config.ini")
              (process_at_start
                 {[ "config.ini" :=
                      Parsed {[ "Settings" := {[ "log_file" := "run.log" ]} ]} ]}
                 empty))
       = Normal tt
    /\ log_files
         (snd (main (fun _ _ value => inl value)
                 (MkNamespace (str_of "Ab1!efgh") 8 "config.ini")
                 (process_at_start
                    {[ "config.ini" :=
                         Parsed {[ "Settings" := {[ "log_file" := "run.log" ]} ]} ]}
                    empty)))
       !! "run.log"
       = Some
           (default []
              (log_files
                 (process_at_start
                    {[ "config.ini" :=
                         Parsed {[ "Settings" := {[ "log_file" := "run.log" ]} ]} ]}
                    empty)
               !! "run.log")
            ++ [(INFO,
                 "Checking password strength (length: "
                 +:+ pretty (len (str_of "Ab1!efgh")) +:+ ")");
                (INFO, "Password scored " +:+ pretty score +:+ "/6")])
    /\ console
         (snd (main (fun _ _ value => inl value)
                 (MkNamespace (str_of "Ab1!efgh") 8 "config.ini")
                 (process_at_start
                    {[ "config.ini" :=
                         Parsed {[ "Settings" := {[ "log_file" := "run.log" ]} ]} ]}
                    empty)))
       = console
           (process_at_start
              {[ "config.ini" :=
                   Parsed {[ "Settings" := {[ "log_file" := "run.log" ]} ]} ]}
              empty)
         ++ [(INFO,
              "Checking password strength (length: "
              +:+ pretty (len (str_of "Ab1!efgh")) +:+ ")");
             (INFO, "Password scored " +:+ pretty score +:+ "/6")].
Proof.
  apply (main_logs_to_file (fun _ _ value => inl value)
           (MkNamespace (str_of "Ab1!efgh") 8 "config.ini")
           (process_at_start
              {[ "config.ini" :=
                   Parsed {[ "Settings" := {[ "log_file" := "run.log" ]} ]} ]}
              empty)
           {[ "Settings" := {[ "log_file" := "run.log" ]} ]}
           {[ "log_file" := "run.log" ]}
           "run.log");
    reflexivity.
Defined.

Lemma main_fallback_logs_nothing_to_file_witness :
  exists score feedback,
    (forall w,
       check_password_strength (PyStr (str_of "Ab1!efgh")) 8 w
       = (Returned (score, feedback), w))
    /\ fst (main (fun _ _ value => inl value)
              (MkNamespace (str_of "Ab1!efgh") 8 "config.ini")
              (process_at_start empty empty))
       = Normal tt
    /\ log_files
         (snd (main (fun _ _ value => inl value)
                 (MkNamespace (str_of "Ab1!efgh") 8 "config.ini")
                 (process_at_start empty empty)))
       = <[ "logs/password_checker.log" :=
              default []
                (log_files (process_at_start empty empty)
                 !! "logs/password_checker.log") ]>
           (log_files (process_at_start empty empty))
    /\ console
         (snd (main (fun _ _ value => inl value)
                 (MkNamespace (str_of "Ab1!efgh") 8 "config.ini")
                 (process_at_start empty empty)))
       = console (process_at_start empty empty)
         ++ [(ERROR,
              "Failed to load config: "
              +:+ exn_str
                    (MkExn FileNotFoundError "Config file config.ini not found"))]
    /\ root
         (snd (main (fun _ _ value => inl value)
                 (MkNamespace (str_of "Ab1!efgh") 8 "config.ini")
                 (process_at_start empty empty)))
       = MkRoot [StreamHandler] WARNING
    /\ log_records
         (proc_world
            (snd (main (fun _ _ value => inl value)
                    (MkNamespace (str_of "Ab1!efgh") 8 "config.ini")
                    (process_at_start empty empty))))
       = log_records (proc_world (process_at_start empty empty))
         ++ [(ERROR,
              "Failed to load config: "
              +:+ exn_str
                    (MkExn FileNotFoundError "Config file config.ini not found"));
             (INFO,
              "Checking password strength (length: "
              +:+ pretty (len (str_of "Ab1!efgh")) +:+ ")");
             (INFO, "Password scored " +:+ pretty score +:+ "/6")].
Proof.
  apply (main_fallback_logs_nothing_to_file (fun _ _ value => inl value)
           (MkNamespace (str_of "Ab1!efgh") 8 "config.ini")
           (process_at_start empty empty)
           (MkExn FileNotFoundError "Config file config.ini not found"));
    reflexivity.
Defined.

Lemma script_reveals_length_and_result_only_witness :
  script (fun _ _ value => inl value)
    (MkNamespace (str_of "aab1") 4 "config.ini")
    (process_at_start empty empty)
  = script (fun _ _ value => inl value)
      (MkNamespace (str_of "1bba") 4 "config.ini")
      (process_at_start empty empty).
Proof.
  apply (script_reveals_length_and_result_only (fun _ _ value => inl value)
           "config.ini" 4 (str_of "aab1") (str_of "1bba")
           (process_at_start empty empty)).
  - reflexivity.
  - intros w. reflexivity.
Defined.

(** A [log_file] that refers to an option that is not there: [config.get]
    raises, and the script ends with status 1 through its second [except]
    clause, nothing printed. *)
Example script_interpolation_error :
  let p :=
    process_at_start
      {[ "config.ini" :=
           Parsed {[ "Settings" := {[ "log_file" := "%(nope)s.log" ]} ]} ]}
      empty in
  let r :=
    script (fun _ _ _ => inr "Bad value substitution")
      (MkNamespace (str_of "Ab1!efgh") 8 "config.ini") p in
  exit_status (fst r) = 1
  /\ stdout (proc_world (snd r)) = []
  /\ log_records (proc_world (snd r))
     = [(CRITICAL, "Unexpected error: Bad value substitution")]
  /\ log_files (snd r) = empty.
Proof. vm_compute. repeat split. Qed.

(** * The checker with any object as [min_length] *)

(** With a number as [min_length] the call is the one studied above. *)
Lemma check_password_strength_untyped_number password m n w :
  as_number m = Some n ->
  check_password_strength_untyped_try password m (0, []) w
  = check_password_strength_try password n (0, []) w
  /\ check_password_strength_untyped password m w
     = check_password_strength password n w.
Proof.
  intros Hn.
  assert (Htry : check_password_strength_untyped_try password m (0, []) w
                 = check_password_strength_try password n (0, []) w).
  { unfold check_password_strength_untyped_try, check_password_strength_try,
      bind, ret.
    destruct password; try reflexivity.
    unfold raise, length_rule_untyped, length_rule, int_ge, bind, ret.
    rewrite Hn. destruct (len s >=? 12); [reflexivity|].
    destruct (len s >=? n); reflexivity. }
  split; [exact Htry|].
  unfold check_password_strength_untyped, check_password_strength, try_except.
  rewrite Htry. reflexivity.
Qed.





(** ** When the fallback is taken *)



(** ** What the checker logs *)


(** ** Score 0 and the error marker *)

(** X6: with a number (an int or a bool) as [min_length], a string gets
    score 0 exactly when it is shorter than 12 and shorter than
    [min_length] and has no character of any of the four classes; the
    feedback is then ["Too short"] alone. *)
Theorem zero_score_iff (s : list codepoint) (m : pyval) (n : Z) (w : world) :
  as_number m = Some n ->
  ((exists feedback,
      fst (check_password_strength_untyped (PyStr s) m w)
      = Returned (0, feedback))
   <-> len s < 12 /\ len s < n
       /\ ~ occurs is_upper s /\ ~ occurs is_lower s
       /\ ~ occurs is_digit s /\ ~ occurs is_special s)
  /\ (forall feedback,
        fst (check_password_strength_untyped (PyStr s) m w)
        = Returned (0, feedback)
        -> feedback = ["Too short"]).
Proof.
  intros Hn.
  destruct (check_password_strength_untyped_number (PyStr s) m n w Hn)
    as [_ ->].
  apply zero_score_iff_int.
Qed.

Lemma zero_score_iff_witness :
  ((exists feedback,
      fst (check_password_strength_untyped (PyStr (str_of "_ _")) (PyInt 8)
             empty_world)
      = Returned (0, feedback))
   <-> len (str_of "_ _") < 12 /\ len (str_of "_ _") < 8
       /\ ~ occurs is_upper (str_of "_ _") /\ ~ occurs is_lower (str_of "_ _")
       /\ ~ occurs is_digit (str_of "_ _") /\ ~ occurs is_special (str_of "_ _"))
  /\ (forall feedback,
        fst (check_password_strength_untyped (PyStr (str_of "_ _")) (PyInt 8)
               empty_world)
        = Returned (0, feedback)
        -> feedback = ["Too short"]).
Proof.
  apply (zero_score_iff (str_of "_ _") (PyInt 8) 8 empty_world).
  reflexivity.
Defined.

